(** * QuadTree terrain LOD: a shallow embedding of QuadTree.h / QuadTree.cpp

    The C++ class [QuadTree] owns a tree of [TerrainNode]s.  It is built once
    by [Initialize], re-marked in place by every [Update] and read back by
    [GetVisibleNodes].  The embedding below follows the source function by
    function:

    - [float] is IEEE-754 binary32, taken from the executable specification
      [SpecFloat] at precision 24 and maximal exponent 128: every [+], [-],
      [*] and [sqrtf] of the source is one correctly rounded operation
      (round to nearest, ties to even, no fused multiply-add and no excess
      precision), comparisons with a NaN are false;
    - [int] and [UINT] are integers with their 32-bit wrap-around written out;
    - a [std::unique_ptr<TerrainNode>] is an [option] of a node, the array
      [Children[4]] four such options;
    - member functions that mutate the [QuadTree] or a node take the old
      value and return the new one;
    - a [TerrainNode*] handed out by [GetVisibleNodes] is the path of child
      indices that leads from the root to the node.

    The second half states and proves the properties: construction
    ([BuildTree], [Initialize]), the calls made before [Initialize],
    [SetHeightRange], collection, the subdivision decision, the end-to-end
    scenario, frustum culling and render slots. *)

From Stdlib Require Import ZArith List Bool Lia.
From Stdlib Require Import Floats.SpecFloat.
Import ListNotations.

Local Open Scope Z_scope.

(* ================================================================== *)
(** ** Machine numbers *)

Definition int := Z.
Definition UINT := Z.

(** Two's complement wrap-around of a 32-bit [int]. *)
Definition wrap_int (z : Z) : int :=
  ((z + 2147483648) mod 4294967296 - 2147483648)%Z.

(** Wrap-around of a 32-bit [unsigned int]. *)
Definition wrap_uint (z : Z) : UINT := (z mod 4294967296)%Z.

(** [a << n] on [int].  C++ defines it for [0 <= n < 32] only; outside that
    range the shift count is reduced modulo 32, as the x86 [shl] does. *)
Definition int_shl (a n : int) : int :=
  wrap_int (Z.shiftl a (n mod 32)).

(** [float]: IEEE-754 binary32. *)
Definition float : Type := spec_float.

Module Float32.

Definition prec : Z := 24.
Definition emax : Z := 128.

(** The binary32 value nearest to [m * 2^e]: literals and [(float)] casts. *)
Definition of_dyadic (m e : Z) : float := binary_normalize prec emax m e false.
Definition of_int (n : int) : float := of_dyadic n 0.

Definition add : float -> float -> float := SFadd prec emax.
Definition sub : float -> float -> float := SFsub prec emax.
Definition mul : float -> float -> float := SFmul prec emax.
Definition sqrtf : float -> float := SFsqrt prec emax.
Definition ltb : float -> float -> bool := SFltb.
Definition leb : float -> float -> bool := SFleb.
Definition gtb (a b : float) : bool := SFltb b a.
Definition geb (a b : float) : bool := SFleb b a.

End Float32.

Declare Scope f32_scope.
Delimit Scope f32_scope with f32.
Bind Scope f32_scope with float.
Infix "+" := Float32.add : f32_scope.
Infix "-" := Float32.sub : f32_scope.
Infix "*" := Float32.mul : f32_scope.
Infix "<?" := Float32.ltb : f32_scope.
Infix ">?" := Float32.gtb : f32_scope.
Infix ">=?" := Float32.geb : f32_scope.

(** The float literals of QuadTree.cpp. *)
Definition f0 : float := S754_zero false.              (* 0.0f   *)
Definition f0_25 : float := Float32.of_dyadic 1 (-2).  (* 0.25f  *)
Definition f0_5 : float := Float32.of_dyadic 1 (-1).   (* 0.5f   *)
Definition f1_5 : float := Float32.of_dyadic 3 (-1).   (* 1.5f   *)
Definition f2 : float := Float32.of_int 2.             (* 2.0f   *)
Definition f10 : float := Float32.of_int 10.           (* 10.0f  *)
Definition f100 : float := Float32.of_int 100.         (* 100.0f *)

(* ================================================================== *)
(** ** DirectXMath vectors and the bounding box *)

Module XMFLOAT3.
Record t : Type := mk { x : float; y : float; z : float }.
End XMFLOAT3.

Module XMFLOAT4.
Record t : Type := mk { x : float; y : float; z : float; w : float }.
End XMFLOAT4.

Record BoundingBoxAABB : Type := mkBoundingBoxAABB {
  Center : XMFLOAT3.t;
  Extents : XMFLOAT3.t
}.

(** [const XMFLOAT4* frustumPlanes]: the pointer is only ever indexed. *)
Definition Planes : Type := nat -> XMFLOAT4.t.

(** One turn of the loop of [BoundingBoxAABB::Intersects]: the signed
    distance of the positive vertex of the box to plane [p]. *)
Definition positiveVertex (b : BoundingBoxAABB) (p : XMFLOAT4.t) : XMFLOAT3.t :=
  let c := Center b in
  let e := Extents b in
  XMFLOAT3.mk
    (if (XMFLOAT4.x p >=? f0)%f32 then (XMFLOAT3.x c + XMFLOAT3.x e)%f32
     else (XMFLOAT3.x c - XMFLOAT3.x e)%f32)
    (if (XMFLOAT4.y p >=? f0)%f32 then (XMFLOAT3.y c + XMFLOAT3.y e)%f32
     else (XMFLOAT3.y c - XMFLOAT3.y e)%f32)
    (if (XMFLOAT4.z p >=? f0)%f32 then (XMFLOAT3.z c + XMFLOAT3.z e)%f32
     else (XMFLOAT3.z c - XMFLOAT3.z e)%f32).

(** [p.x * v.x + p.y * v.y + p.z * v.z + p.w], associated to the left. *)
Definition planeDistance (p : XMFLOAT4.t) (v : XMFLOAT3.t) : float :=
  (XMFLOAT4.x p * XMFLOAT3.x v + XMFLOAT4.y p * XMFLOAT3.y v
   + XMFLOAT4.z p * XMFLOAT3.z v + XMFLOAT4.w p)%f32.

(** The [for (int i = 0; i < 6; ++i)] loop, started at index [i] with [n]
    turns left; a negative distance returns [false] at once. *)
Fixpoint Intersects_from (b : BoundingBoxAABB) (frustumPlanes : Planes)
    (i n : nat) : bool :=
  match n with
  | O => true
  | S n' =>
      let distance := planeDistance (frustumPlanes i)
                        (positiveVertex b (frustumPlanes i)) in
      if (distance <? f0)%f32 then false
      else Intersects_from b frustumPlanes (S i) n'
  end.

Definition Intersects (b : BoundingBoxAABB) (frustumPlanes : Planes) : bool :=
  Intersects_from b frustumPlanes 0%nat 6%nat.

(* ================================================================== *)
(** ** TerrainNode *)

(** The scalar members of [struct TerrainNode]. *)
Module TerrainNode.
Record fields : Type := mkFields {
  X : float;
  Z : float;
  Size : float;
  LODLevel : int;
  MaxLOD : int;
  Bounds : BoundingBoxAABB;
  MinY : float;
  MaxY : float;
  IsLeaf : bool;
  IsVisible : bool;
  ObjectCBIndex : UINT
}.
End TerrainNode.

(** A node: its scalar members and [Children[0..3]] (NW, NE, SW, SE). *)
#[local] Set Warnings "-register-all".
Inductive TerrainNode : Type :=
| Node (f : TerrainNode.fields) (c0 c1 c2 c3 : option TerrainNode).

Definition fields_of (n : TerrainNode) : TerrainNode.fields :=
  match n with Node f _ _ _ _ => f end.

Definition Children (n : TerrainNode) (i : nat) : option TerrainNode :=
  match n with
  | Node _ c0 c1 c2 c3 =>
      match i with
      | 0 => c0 | 1 => c1 | 2 => c2 | 3 => c3
      | _ => None
      end%nat
  end.

(** [TerrainNode::TerrainNode()]. *)
Definition TerrainNode_fields_new : TerrainNode.fields :=
  TerrainNode.mkFields f0 f0 f0 0 0
    (mkBoundingBoxAABB (XMFLOAT3.mk f0 f0 f0) (XMFLOAT3.mk f0 f0 f0))
    f0 f0 true false 0.

Definition TerrainNode_new : TerrainNode :=
  Node TerrainNode_fields_new None None None None.

(** Assignments to single members. *)
Definition set_IsVisible (v : bool) (f : TerrainNode.fields) :=
  let (a, b, c, d, e, g, h, i, j, _, l) := f in
  TerrainNode.mkFields a b c d e g h i j v l.

Definition set_LODLevel (v : int) (f : TerrainNode.fields) :=
  let (a, b, c, _, e, g, h, i, j, k, l) := f in
  TerrainNode.mkFields a b c v e g h i j k l.

Definition set_ObjectCBIndex (v : UINT) (f : TerrainNode.fields) :=
  let (a, b, c, d, e, g, h, i, j, k, _) := f in
  TerrainNode.mkFields a b c d e g h i j k v.

Definition set_IsLeaf (v : bool) (f : TerrainNode.fields) :=
  let (a, b, c, d, e, g, h, i, _, k, l) := f in
  TerrainNode.mkFields a b c d e g h i v k l.

(* ================================================================== *)
(** ** QuadTree *)

Record QuadTree : Type := mkQuadTree {
  mRoot : option TerrainNode;
  mTerrainSize : float;
  mMinNodeSize : float;
  mMaxLODLevels : int;
  mLODDistances : list float;
  mVisibleNodeCount : int;
  mTotalNodeCount : int;
  mNextObjectCBIndex : UINT
}.

(** [QuadTree::QuadTree()]. *)
Definition QuadTree_new : QuadTree :=
  mkQuadTree None f0 f0 0 [] 0 0 0.

Definition set_mRoot (r : option TerrainNode) (q : QuadTree) :=
  let (_, a, b, c, d, e, f, g) := q in mkQuadTree r a b c d e f g.

Definition set_mTotalNodeCount (v : int) (q : QuadTree) :=
  let (r, a, b, c, d, e, _, g) := q in mkQuadTree r a b c d e v g.

Definition set_mVisibleNodeCount (v : int) (q : QuadTree) :=
  let (r, a, b, c, d, _, f, g) := q in mkQuadTree r a b c d v f g.

Definition set_mNextObjectCBIndex (v : UINT) (q : QuadTree) :=
  let (r, a, b, c, d, e, f, _) := q in mkQuadTree r a b c d e f v.

(** *** Construction *)

(** The first half of [BuildTree]: the members written before the
    subdivision test. *)
Definition BuildTree_stamp (q : QuadTree) (f : TerrainNode.fields)
    (x z size : float) (depth : int) : TerrainNode.fields :=
  let MinY := f0 in
  let MaxY := f100 in
  TerrainNode.mkFields x z size depth (wrap_int (mMaxLODLevels q - 1))
    (mkBoundingBoxAABB
       (XMFLOAT3.mk x ((MinY + MaxY) * f0_5)%f32 z)
       (XMFLOAT3.mk (size * f0_5)%f32 ((MaxY - MinY) * f0_5 + f10)%f32
          (size * f0_5)%f32))
    MinY MaxY (TerrainNode.IsLeaf f) (TerrainNode.IsVisible f)
    (TerrainNode.ObjectCBIndex f).

(** [if (size > mMinNodeSize && depth < mMaxLODLevels - 1)]. *)
Definition BuildTree_subdivides (q : QuadTree) (size : float) (depth : int)
    : bool :=
  (size >? mMinNodeSize q)%f32 && (depth <? wrap_int (mMaxLODLevels q - 1))%Z.

(** [QuadTree::BuildTree].  The recursion of the source is bounded by
    [mMaxLODLevels - 1 - depth]; [fuel] stands for that bound and
    [BuildTree_fuel] shows that no call made by [Initialize] exhausts it. *)
Fixpoint BuildTree (fuel : nat) (q : QuadTree) (node : TerrainNode)
    (x z size : float) (depth : int) : TerrainNode * QuadTree :=
  match node with
  | Node f c0 c1 c2 c3 =>
      let f := BuildTree_stamp q f x z size depth in
      let q := set_mTotalNodeCount (wrap_int (mTotalNodeCount q + 1)) q in
      if BuildTree_subdivides q size depth then
        match fuel with
        | O => (Node f c0 c1 c2 c3, q)   (* not reached: [BuildTree_fuel] *)
        | S fuel' =>
            let f := set_IsLeaf false f in
            let halfSize := (size * f0_5)%f32 in
            let quarterSize := (size * f0_25)%f32 in
            let d := wrap_int (depth + 1) in
            let '(n0, q) := BuildTree fuel' q TerrainNode_new
                              (x - quarterSize)%f32 (z + quarterSize)%f32
                              halfSize d in
            let '(n1, q) := BuildTree fuel' q TerrainNode_new
                              (x + quarterSize)%f32 (z + quarterSize)%f32
                              halfSize d in
            let '(n2, q) := BuildTree fuel' q TerrainNode_new
                              (x - quarterSize)%f32 (z - quarterSize)%f32
                              halfSize d in
            let '(n3, q) := BuildTree fuel' q TerrainNode_new
                              (x + quarterSize)%f32 (z - quarterSize)%f32
                              halfSize d in
            (Node f (Some n0) (Some n1) (Some n2) (Some n3), q)
        end
      else (Node (set_IsLeaf true f) c0 c1 c2 c3, q)
  end.

(** The default thresholds written by the loop of [Initialize], from index
    [i] on, [n] turns left. *)
Fixpoint default_LODDistances (minNodeSize : float) (maxLODLevels : int)
    (i : int) (n : nat) : list float :=
  match n with
  | O => []
  | S n' =>
      (minNodeSize
       * Float32.of_int (int_shl 1 (wrap_int (wrap_int (maxLODLevels - i) - 1)))
       * f2)%f32
      :: default_LODDistances minNodeSize maxLODLevels (i + 1) n'
  end.

(** [QuadTree::Initialize].  [None] is the exception that
    [std::vector::resize] throws when asked for a negative number of
    elements (the [int] becomes a [size_t] above [max_size()]). *)
Definition Initialize (q : QuadTree) (terrainSize minNodeSize : float)
    (maxLODLevels : int) : option QuadTree :=
  let q := mkQuadTree (mRoot q) terrainSize minNodeSize maxLODLevels
             (mLODDistances q) (mVisibleNodeCount q) 0
             (mNextObjectCBIndex q) in
  let distances :=
    match mLODDistances q with
    | [] =>
        if (maxLODLevels <? 0)%Z then None
        else Some (default_LODDistances minNodeSize maxLODLevels 0
                     (Z.to_nat maxLODLevels))
    | _ :: _ => Some (mLODDistances q)
    end in
  match distances with
  | None => None
  | Some ds =>
      let q := mkQuadTree (mRoot q) (mTerrainSize q) (mMinNodeSize q)
                 (mMaxLODLevels q) ds (mVisibleNodeCount q)
                 (mTotalNodeCount q) (mNextObjectCBIndex q) in
      let '(root, q) :=
        BuildTree (Z.to_nat (wrap_int (maxLODLevels - 1))) q TerrainNode_new
          f0 f0 terrainSize 0 in
      Some (set_mRoot (Some root) q)
  end.

Definition GetTotalNodeCount (q : QuadTree) : int := mTotalNodeCount q.
Definition GetVisibleNodeCount (q : QuadTree) : int := mVisibleNodeCount q.

Definition SetLODDistances (distances : list float) (q : QuadTree) : QuadTree :=
  let (r, a, b, c, _, e, f, g) := q in mkQuadTree r a b c distances e f g.

(** *** Per-frame selection *)

Definition horizontalDistance (f : TerrainNode.fields) (cameraPos : XMFLOAT3.t)
    : float :=
  let dx := (XMFLOAT3.x cameraPos - TerrainNode.X f)%f32 in
  let dz := (XMFLOAT3.z cameraPos - TerrainNode.Z f)%f32 in
  Float32.sqrtf (dx * dx + dz * dz)%f32.

(** [QuadTree::ShouldSubdivide]. *)
Definition ShouldSubdivide (f : TerrainNode.fields) (cameraPos : XMFLOAT3.t)
    : bool :=
  if TerrainNode.IsLeaf f then false
  else (horizontalDistance f cameraPos <? TerrainNode.Size f * f1_5)%f32.

(** The threshold scan of [CalculateLOD] from index [i] on. *)
Fixpoint CalculateLOD_scan (distance : float) (ds : list float) (i : int)
    (otherwise : int) : int :=
  match ds with
  | [] => otherwise
  | d :: ds' =>
      if (distance <? d)%f32 then i
      else CalculateLOD_scan distance ds' (i + 1) otherwise
  end.

(** [QuadTree::CalculateLOD]. *)
Definition CalculateLOD (q : QuadTree) (f : TerrainNode.fields)
    (cameraPos : XMFLOAT3.t) : int :=
  let dx := (XMFLOAT3.x cameraPos - TerrainNode.X f)%f32 in
  let dy := (XMFLOAT3.y cameraPos
             - (TerrainNode.MinY f + TerrainNode.MaxY f) * f0_5)%f32 in
  let dz := (XMFLOAT3.z cameraPos - TerrainNode.Z f)%f32 in
  let distance := Float32.sqrtf (dx * dx + dy * dy + dz * dz)%f32 in
  CalculateLOD_scan distance (mLODDistances q) 0
    (wrap_int (mMaxLODLevels q - 1)).

(** [if (node->Children[i]) UpdateNode(node->Children[i].get(), ...)]. *)
Definition visit_child (visit : TerrainNode -> QuadTree -> TerrainNode * QuadTree)
    (c : option TerrainNode) (q : QuadTree) : option TerrainNode * QuadTree :=
  match c with
  | Some n => let '(n', q') := visit n q in (Some n', q')
  | None => (None, q)
  end.

(** The [else] branch of [UpdateNode]: the node takes the next render slot. *)
Definition activate (f : TerrainNode.fields) (q : QuadTree)
    : TerrainNode.fields * QuadTree :=
  (set_ObjectCBIndex (mNextObjectCBIndex q) f,
   set_mVisibleNodeCount (wrap_int (mVisibleNodeCount q + 1))
     (set_mNextObjectCBIndex (wrap_uint (mNextObjectCBIndex q + 1)) q)).

(** [QuadTree::UpdateNode]. *)
Fixpoint UpdateNode (cameraPos : XMFLOAT3.t) (frustumPlanes : Planes)
    (node : TerrainNode) (q : QuadTree) {struct node} : TerrainNode * QuadTree :=
  match node with
  | Node f c0 c1 c2 c3 =>
      let f := set_IsVisible (Intersects (TerrainNode.Bounds f) frustumPlanes) f in
      if negb (TerrainNode.IsVisible f) then (Node f c0 c1 c2 c3, q)
      else
        let desiredLOD := CalculateLOD q f cameraPos in
        let f := set_LODLevel desiredLOD f in
        if negb (TerrainNode.IsLeaf f) && ShouldSubdivide f cameraPos then
          let f := set_IsVisible false f in
          let '(c0, q) := visit_child (UpdateNode cameraPos frustumPlanes) c0 q in
          let '(c1, q) := visit_child (UpdateNode cameraPos frustumPlanes) c1 q in
          let '(c2, q) := visit_child (UpdateNode cameraPos frustumPlanes) c2 q in
          let '(c3, q) := visit_child (UpdateNode cameraPos frustumPlanes) c3 q in
          (Node f c0 c1 c2 c3, q)
        else
          let '(f, q) := activate f q in
          (Node f c0 c1 c2 c3, q)
  end.

(** [QuadTree::Update]. *)
Definition Update (cameraPos : XMFLOAT3.t) (frustumPlanes : Planes)
    (q : QuadTree) : QuadTree :=
  let q := set_mVisibleNodeCount 0 q in
  let q := set_mNextObjectCBIndex 0 q in
  match mRoot q with
  | Some root =>
      let '(root, q) := UpdateNode cameraPos frustumPlanes root q in
      set_mRoot (Some root) q
  | None => q
  end.

(** *** Collection *)

(** A [TerrainNode*] into the tree: the child indices from the root down. *)
Definition NodePtr : Type := list nat.

Fixpoint node_at (n : TerrainNode) (p : NodePtr) : option TerrainNode :=
  match p with
  | [] => Some n
  | i :: p' =>
      match Children n i with
      | Some c => node_at c p'
      | None => None
      end
  end.

(** [QuadTree::CollectVisibleNodes]; [self] is the address of [node]. *)
Fixpoint CollectVisibleNodes (node : TerrainNode) (self : NodePtr)
    (outNodes : list NodePtr) {struct node} : list NodePtr :=
  match node with
  | Node f c0 c1 c2 c3 =>
      if TerrainNode.IsVisible f then outNodes ++ [self]
      else if negb (TerrainNode.IsLeaf f) then
        let visit i c out :=
          match c with
          | Some n => CollectVisibleNodes n (self ++ [i]) out
          | None => out
          end in
        visit 3%nat c3 (visit 2%nat c2 (visit 1%nat c1 (visit 0%nat c0 outNodes)))
      else outNodes
  end.

(** [QuadTree::GetVisibleNodes]; the argument is the caller's vector, which
    is cleared first ([reserve] changes its capacity only). *)
Definition GetVisibleNodes (q : QuadTree) (outNodes : list NodePtr)
    : list NodePtr :=
  let outNodes : list NodePtr := [] in
  match mRoot q with
  | Some root => CollectVisibleNodes root [] outNodes
  | None => outNodes
  end.

(** *** Height range *)

Definition set_height (minY maxY : float) (f : TerrainNode.fields)
    : TerrainNode.fields :=
  let (a, b, c, d, e, g, _, _, j, k, l) := f in
  let (ctr, ext) := g in
  TerrainNode.mkFields a b c d e
    (mkBoundingBoxAABB
       (XMFLOAT3.mk (XMFLOAT3.x ctr) ((minY + maxY) * f0_5)%f32 (XMFLOAT3.z ctr))
       (XMFLOAT3.mk (XMFLOAT3.x ext) ((maxY - minY) * f0_5 + f10)%f32
          (XMFLOAT3.z ext)))
    minY maxY j k l.

(** [QuadTree::SetHeightRange]. *)
Definition SetHeightRange (x z size minY maxY : float) (q : QuadTree)
    : QuadTree :=
  match mRoot q with
  | Some (Node f c0 c1 c2 c3) =>
      set_mRoot (Some (Node (set_height minY maxY f) c0 c1 c2 c3)) q
  | None => q
  end.

(* ================================================================== *)
(** ** Vocabulary of the properties *)

(** *** Trees *)

(** [P] holds of the node in a child slot, if there is one. *)
Definition opt_all (P : TerrainNode -> Prop) (c : option TerrainNode) : Prop :=
  match c with
  | Some n => P n
  | None => True
  end.

(** Induction over a node and the nodes its four slots own. *)
Fixpoint TerrainNode_tree_ind (P : TerrainNode -> Prop)
    (step : forall f c0 c1 c2 c3,
        opt_all P c0 -> opt_all P c1 -> opt_all P c2 -> opt_all P c3 ->
        P (Node f c0 c1 c2 c3))
    (n : TerrainNode) {struct n} : P n :=
  match n with
  | Node f c0 c1 c2 c3 =>
      let sub c : opt_all P c :=
        match c as c' return opt_all P c' with
        | Some m => TerrainNode_tree_ind P step m
        | None => I
        end in
      step f c0 c1 c2 c3 (sub c0) (sub c1) (sub c2) (sub c3)
  end.

(** [P] holds of [n] and of every node below it. *)
Fixpoint everywhere (P : TerrainNode -> Prop) (n : TerrainNode) {struct n}
    : Prop :=
  match n with
  | Node _ c0 c1 c2 c3 =>
      P n /\ opt_all (everywhere P) c0 /\ opt_all (everywhere P) c1 /\
      opt_all (everywhere P) c2 /\ opt_all (everywhere P) c3
  end.

(** The four child slots with their indices. *)
Definition slots (c0 c1 c2 c3 : option TerrainNode)
    : list (nat * option TerrainNode) :=
  [(0%nat, c0); (1%nat, c1); (2%nat, c2); (3%nat, c3)].

(** Every node of the subtree of [n] with its address, in depth-first
    pre-order (NW, NE, SW, SE). *)
Fixpoint nodes_of (n : TerrainNode) (self : NodePtr)
    : list (NodePtr * TerrainNode) :=
  match n with
  | Node _ c0 c1 c2 c3 =>
      let sub i c :=
        match c with
        | Some m => nodes_of m (self ++ [i])
        | None => []
        end in
      (self, n) :: sub 0%nat c0 ++ sub 1%nat c1 ++ sub 2%nat c2 ++ sub 3%nat c3
  end.

(** The number of nodes of the subtree of [n]. *)
Fixpoint subtree_size (n : TerrainNode) : nat :=
  match n with
  | Node _ c0 c1 c2 c3 =>
      let sub c :=
        match c with
        | Some m => subtree_size m
        | None => 0%nat
        end in
      S (sub c0 + sub c1 + sub c2 + sub c3)
  end.

Definition opt_size (c : option TerrainNode) : nat :=
  match c with
  | Some m => subtree_size m
  | None => 0%nat
  end.

Definition count_nodes (n : TerrainNode) : Z := Z.of_nat (subtree_size n).

Definition no_children (n : TerrainNode) : bool :=
  match n with
  | Node _ None None None None => true
  | _ => false
  end.

(** A complete quadtree of depth [d]: every node above depth [d] is internal
    with four children, every node at depth [d] is a childless leaf. *)
Fixpoint complete_quadtree (d : nat) (n : TerrainNode) : bool :=
  match d, n with
  | O, Node f None None None None => TerrainNode.IsLeaf f
  | S d', Node f (Some n0) (Some n1) (Some n2) (Some n3) =>
      negb (TerrainNode.IsLeaf f)
      && complete_quadtree d' n0 && complete_quadtree d' n1
      && complete_quadtree d' n2 && complete_quadtree d' n3
  | _, _ => false
  end.

(** *** The shape of a built tree *)

(** [child] covers the quadrant of [parent] on the east or west, north or
    south side: half the size, centre a quarter of the size away along both
    axes. *)
Definition quadrant_of (parent child : TerrainNode.fields) (east north : bool)
    : Prop :=
  let quarter := (TerrainNode.Size parent * f0_25)%f32 in
  TerrainNode.Size child = (TerrainNode.Size parent * f0_5)%f32 /\
  TerrainNode.X child
  = (if east then TerrainNode.X parent + quarter
     else TerrainNode.X parent - quarter)%f32 /\
  TerrainNode.Z child
  = (if north then TerrainNode.Z parent + quarter
     else TerrainNode.Z parent - quarter)%f32.

(** The four children of [f] sit in the slots NW, NE, SW, SE. *)
Definition four_quadrants (f : TerrainNode.fields)
    (c0 c1 c2 c3 : option TerrainNode) : Prop :=
  exists n0 n1 n2 n3,
    c0 = Some n0 /\ c1 = Some n1 /\ c2 = Some n2 /\ c3 = Some n3 /\
    quadrant_of f (fields_of n0) false true /\
    quadrant_of f (fields_of n1) true true /\
    quadrant_of f (fields_of n2) false false /\
    quadrant_of f (fields_of n3) true false.

(** The shape [BuildTree] gives to one node. *)
Definition well_formed_node (n : TerrainNode) : Prop :=
  match n with
  | Node f c0 c1 c2 c3 =>
      if TerrainNode.IsLeaf f
      then c0 = None /\ c1 = None /\ c2 = None /\ c3 = None
      else four_quadrants f c0 c1 c2 c3
  end.

(** The outcome of [Initialize] is a tree of one node, a leaf. *)
Definition single_node_tree (r : option QuadTree) : Prop :=
  exists q f,
    r = Some q /\ mRoot q = Some (Node f None None None None) /\
    TerrainNode.IsLeaf f = true /\ GetTotalNodeCount q = 1.

(** The edges of the square footprint of a node. *)
Definition west (f : TerrainNode.fields) : float :=
  (TerrainNode.X f - TerrainNode.Size f * f0_5)%f32.
Definition east (f : TerrainNode.fields) : float :=
  (TerrainNode.X f + TerrainNode.Size f * f0_5)%f32.
Definition south (f : TerrainNode.fields) : float :=
  (TerrainNode.Z f - TerrainNode.Size f * f0_5)%f32.
Definition north (f : TerrainNode.fields) : float :=
  (TerrainNode.Z f + TerrainNode.Size f * f0_5)%f32.

(** The footprint of [child] is the rectangle [w, e] x [s, n]. *)
Definition footprint_is (child : option TerrainNode) (w e s n : float) : bool :=
  match child with
  | Some c =>
      SFeqb (west (fields_of c)) w && SFeqb (east (fields_of c)) e
      && SFeqb (south (fields_of c)) s && SFeqb (north (fields_of c)) n
  | None => false
  end.

(** The four children split the footprint of their parent along its two
    centre lines: no gap, no overlap. *)
Definition children_tile (n : TerrainNode) : bool :=
  match n with
  | Node f c0 c1 c2 c3 =>
      let x := TerrainNode.X f in
      let z := TerrainNode.Z f in
      footprint_is c0 (west f) x z (north f)
      && footprint_is c1 x (east f) z (north f)
      && footprint_is c2 (west f) x (south f) z
      && footprint_is c3 x (east f) (south f) z
  end.

(** A point and a square footprint in exact integer arithmetic: centre
    [(cx, cz)], side [side], west and south edges included.  Doubling the
    coordinates keeps the half side an integer. *)
Definition in_square (cx cz side px pz : Z) : Prop :=
  2 * cx - side <= 2 * px < 2 * cx + side /\
  2 * cz - side <= 2 * pz < 2 * cz + side.

(** *** Handles and frames *)

(** [a] is a proper ancestor of [b]: the path to [b] passes through [a]. *)
Definition is_ancestor (a b : NodePtr) : Prop :=
  exists rest, rest <> [] /\ b = a ++ rest.

(** The members behind a handle returned by [GetVisibleNodes]. *)
Definition deref (q : QuadTree) (p : NodePtr) : option TerrainNode.fields :=
  match mRoot q with
  | Some root => option_map fields_of (node_at root p)
  | None => None
  end.

(** The render slots behind a sequence of handles. *)
Definition slots_of (q : QuadTree) (ps : list NodePtr) : list (option UINT) :=
  map (fun p => option_map TerrainNode.ObjectCBIndex (deref q p)) ps.

(** A sequence of [Update] calls, oldest first. *)
Definition Updates (calls : list (XMFLOAT3.t * Planes)) (q : QuadTree)
    : QuadTree :=
  fold_left (fun q c => Update (fst c) (snd c) q) calls q.

(** What [CollectVisibleNodes] appends below one child slot. *)
Definition collected_below (self : NodePtr) (slot : nat * option TerrainNode)
    : list NodePtr :=
  match snd slot with
  | Some n => CollectVisibleNodes n (self ++ [fst slot]) []
  | None => []
  end.

Definition opt_collect (c : option TerrainNode) : list NodePtr :=
  match c with
  | Some m => CollectVisibleNodes m [] []
  | None => []
  end.

(** No visible flag is set: the state [Initialize] leaves a node in. *)
Definition invisible (n : TerrainNode) : Prop :=
  TerrainNode.IsVisible (fields_of n) = false.

(** *** The frustum *)

(** The eight corners of a box. *)
Definition corners (b : BoundingBoxAABB) : list XMFLOAT3.t :=
  let c := Center b in
  let e := Extents b in
  let lo v w := (v - w)%f32 in
  let hi v w := (v + w)%f32 in
  flat_map (fun px => flat_map (fun py => map (fun pz => XMFLOAT3.mk px py pz)
      [lo (XMFLOAT3.z c) (XMFLOAT3.z e); hi (XMFLOAT3.z c) (XMFLOAT3.z e)])
      [lo (XMFLOAT3.y c) (XMFLOAT3.y e); hi (XMFLOAT3.y c) (XMFLOAT3.y e)])
      [lo (XMFLOAT3.x c) (XMFLOAT3.x e); hi (XMFLOAT3.x c) (XMFLOAT3.x e)].

(** The box lies entirely on the negative side of plane [p]: all eight
    corners have a negative signed distance. *)
Definition box_behind (b : BoundingBoxAABB) (p : XMFLOAT4.t) : bool :=
  forallb (fun v => (planeDistance p v <? f0)%f32) (corners b).

(** The box lies entirely on the negative side of one of the six planes. *)
Definition outside_frustum (b : BoundingBoxAABB) (frustumPlanes : Planes)
    : bool :=
  existsb (fun i => box_behind b (frustumPlanes i)) (seq 0%nat 6%nat).

(** After [UpdateNode] on [n], the node at the relative address [a] is one
    that passed the frustum test. *)
Definition tested_at (cameraPos : XMFLOAT3.t) (frustumPlanes : Planes)
    (n : TerrainNode) (q : QuadTree) (a : NodePtr) : Prop :=
  exists m,
    node_at (fst (UpdateNode cameraPos frustumPlanes n q)) a = Some m /\
    Intersects (TerrainNode.Bounds (fields_of m)) frustumPlanes = true.

(** *** Render slots *)

(** The integers [start], [start + 1], ... ([len] of them). *)
Definition Zseq (start : Z) (len : nat) : list Z :=
  map (fun j => start + Z.of_nat j) (seq 0 len).

(** The render slots behind handles relative to node [n]. *)
Definition slots_in (n : TerrainNode) (ps : list NodePtr) : list (option UINT) :=
  map (fun p =>
         option_map (fun m => TerrainNode.ObjectCBIndex (fields_of m))
           (node_at n p)) ps.

Definition opt_slots (c : option TerrainNode) : list (option UINT) :=
  match c with
  | Some m => slots_in m (CollectVisibleNodes m [] [])
  | None => []
  end.

(** The two frame counters of [q] can take [n] more nodes without wrapping. *)
Definition room_for (q : QuadTree) (n : nat) : Prop :=
  0 <= mNextObjectCBIndex q /\
  mNextObjectCBIndex q + Z.of_nat n < 4294967296 /\
  -2147483648 <= mVisibleNodeCount q /\
  mVisibleNodeCount q + Z.of_nat n < 2147483648.

(** From [q] to [q'] the [count] collected nodes took the slots [slots]:
    consecutive numbers from the counter of [q] on, both counters advanced
    by [count], which is at most [bound]. *)
Definition slots_advance (q q' : QuadTree) (slots : list (option UINT))
    (count bound : nat) : Prop :=
  slots = map Some (Zseq (mNextObjectCBIndex q) count) /\
  mNextObjectCBIndex q' = mNextObjectCBIndex q + Z.of_nat count /\
  mVisibleNodeCount q' = mVisibleNodeCount q + Z.of_nat count /\
  (count <= bound)%nat.

(** On a tree without stale flags, [UpdateNode] hands out consecutive
    slots in the order in which [CollectVisibleNodes] returns the nodes. *)
Definition hands_out_slots (cameraPos : XMFLOAT3.t) (frustumPlanes : Planes)
    (n : TerrainNode) : Prop :=
  everywhere invisible n ->
  forall q : QuadTree,
    room_for q (subtree_size n) ->
    let r := UpdateNode cameraPos frustumPlanes n q in
    let visible := CollectVisibleNodes (fst r) [] [] in
    slots_advance q (snd r) (slots_in (fst r) visible) (length visible)
      (subtree_size n).

(* ================================================================== *)
(** ** Test scenes *)

Definition f512 : float := Float32.of_int 512.
Definition f64 : float := Float32.of_int 64.
Definition f128 : float := Float32.of_int 128.
Definition f768 : float := Float32.of_int 768.
Definition f1000 : float := Float32.of_int 1000.
Definition f1 : float := Float32.of_int 1.
Definition fm1 : float := Float32.of_int (-1).
Definition far : float := Float32.of_int 1000000.

(** The terrain of the end-to-end scenario: [Initialize(512, 64, 5)] on a
    freshly constructed [QuadTree]. *)
Definition terrain512 : QuadTree :=
  match Initialize QuadTree_new f512 f64 5 with
  | Some q => q
  | None => QuadTree_new
  end.

Definition root512 : TerrainNode :=
  match mRoot terrain512 with
  | Some root => root
  | None => TerrainNode_new
  end.

(** A frustum that accepts every box of the terrain: the cube of half-side
    1000000 around the origin, all six planes pointing inward. *)
Definition acceptAll : Planes := fun i =>
  match i with
  | 0 => XMFLOAT4.mk f1 f0 f0 far
  | 1 => XMFLOAT4.mk fm1 f0 f0 far
  | 2 => XMFLOAT4.mk f0 f1 f0 far
  | 3 => XMFLOAT4.mk f0 fm1 f0 far
  | 4 => XMFLOAT4.mk f0 f0 f1 far
  | _ => XMFLOAT4.mk f0 f0 fm1 far
  end%nat.

(** The same cube with its near face moved to [z >= 10000]: the whole
    terrain lies behind plane 4. *)
Definition lookAway : Planes := fun i =>
  match i with
  | 4%nat => XMFLOAT4.mk f0 f0 f1 (Float32.of_int (-10000))
  | _ => acceptAll i
  end.

(** The same cube with its west face moved to [x >= 1]: the north-west and
    south-west quadrants of the terrain lie behind plane 0. *)
Definition eastOnly : Planes := fun i =>
  match i with
  | 0%nat => XMFLOAT4.mk f1 f0 f0 fm1
  | _ => acceptAll i
  end.

(** 768 = 1.5 * 512, and the binary32 value just below it. *)
Definition below768 : float := Float32.of_dyadic (768 * 2 ^ 14 - 1) (-14).

Definition cameraAt768 : XMFLOAT3.t := XMFLOAT3.mk f768 f0 f0.
Definition cameraBelow768 : XMFLOAT3.t := XMFLOAT3.mk below768 f0 f0.
Definition cameraAbove : XMFLOAT3.t := XMFLOAT3.mk f0 f1000 f0.
Definition cameraCenter : XMFLOAT3.t := XMFLOAT3.mk f0 f0 f0.

(* ================================================================== *)
(** ** Exact values of binary32 numbers *)

(** A dyadic rational [num * 2 ^ exp]: the exact value of a finite binary32
    number, and exact arithmetic on such values. *)
Module Dyadic.

Record t : Type := mk { num : Z; exp : Z }.

(** The value of a finite number; infinities and NaN have none and read
    as 0 ([is_finite] tells them apart). *)
Definition of_float (x : float) : t :=
  match x with
  | S754_finite s m e => mk (if s then Z.neg m else Z.pos m) e
  | _ => mk 0 0
  end.

Definition is_finite (x : float) : bool :=
  match x with
  | S754_zero _ | S754_finite _ _ _ => true
  | _ => false
  end.

(** The numerator of [a] over the denominator [2 ^ (- e)], for
    [e <= exp a]. *)
Definition scaled (a : t) (e : Z) : Z := num a * 2 ^ (exp a - e).

Definition add (a b : t) : t :=
  let e := Z.min (exp a) (exp b) in mk (scaled a e + scaled b e) e.

Definition sub (a b : t) : t :=
  let e := Z.min (exp a) (exp b) in mk (scaled a e - scaled b e) e.

Definition mul (a b : t) : t := mk (num a * num b) (exp a + exp b).

Definition ltb (a b : t) : bool :=
  let e := Z.min (exp a) (exp b) in (scaled a e <? scaled b e)%Z.

Definition eqb (a b : t) : bool :=
  let e := Z.min (exp a) (exp b) in (scaled a e =? scaled b e)%Z.

Definition zero : t := mk 0 0.
Definition half : t := mk 1 (-1).            (* 1/2 *)
Definition one_and_a_half : t := mk 3 (-1).  (* 3/2 *)

End Dyadic.

(** The horizontal distance of the camera from the centre of the node is
    strictly below 1.5 times the size of the node, in exact arithmetic on
    the values of the coordinates: the distance and the bound are compared
    by their squares, the bound being positive. *)
Definition exactly_closer_than_one_and_a_half_sizes (f : TerrainNode.fields)
    (cameraPos : XMFLOAT3.t) : bool :=
  let dx := Dyadic.sub (Dyadic.of_float (XMFLOAT3.x cameraPos))
              (Dyadic.of_float (TerrainNode.X f)) in
  let dz := Dyadic.sub (Dyadic.of_float (XMFLOAT3.z cameraPos))
              (Dyadic.of_float (TerrainNode.Z f)) in
  let bound := Dyadic.mul Dyadic.one_and_a_half
                 (Dyadic.of_float (TerrainNode.Size f)) in
  Dyadic.ltb Dyadic.zero bound
  && Dyadic.ltb (Dyadic.add (Dyadic.mul dx dx) (Dyadic.mul dz dz))
       (Dyadic.mul bound bound).

(** Recursing into a child slot: the whole procedure of [UpdateNode] is
    repeated on the node in the slot; an empty slot is left alone. *)
Definition recursed_into (cameraPos : XMFLOAT3.t) (frustumPlanes : Planes)
    (c : option TerrainNode) (q : QuadTree) : option TerrainNode * QuadTree :=
  match c with
  | Some n =>
      (Some (fst (UpdateNode cameraPos frustumPlanes n q)),
       snd (UpdateNode cameraPos frustumPlanes n q))
  | None => (None, q)
  end.

(** The exact edges of the square footprint of a node. *)
Definition exact_west (f : TerrainNode.fields) : Dyadic.t :=
  Dyadic.sub (Dyadic.of_float (TerrainNode.X f))
    (Dyadic.mul Dyadic.half (Dyadic.of_float (TerrainNode.Size f))).
Definition exact_east (f : TerrainNode.fields) : Dyadic.t :=
  Dyadic.add (Dyadic.of_float (TerrainNode.X f))
    (Dyadic.mul Dyadic.half (Dyadic.of_float (TerrainNode.Size f))).
Definition exact_south (f : TerrainNode.fields) : Dyadic.t :=
  Dyadic.sub (Dyadic.of_float (TerrainNode.Z f))
    (Dyadic.mul Dyadic.half (Dyadic.of_float (TerrainNode.Size f))).
Definition exact_north (f : TerrainNode.fields) : Dyadic.t :=
  Dyadic.add (Dyadic.of_float (TerrainNode.Z f))
    (Dyadic.mul Dyadic.half (Dyadic.of_float (TerrainNode.Size f))).

(** The exact footprint of [child] is the rectangle [w, e] x [s, n]. *)
Definition exact_footprint_is (child : option TerrainNode)
    (w e s n : Dyadic.t) : bool :=
  match child with
  | Some c =>
      Dyadic.eqb (exact_west (fields_of c)) w
      && Dyadic.eqb (exact_east (fields_of c)) e
      && Dyadic.eqb (exact_south (fields_of c)) s
      && Dyadic.eqb (exact_north (fields_of c)) n
  | None => false
  end.

(** The four children split the exact footprint of their parent along its
    two centre lines: no gap, no overlap. *)
Definition children_tile_exactly (n : TerrainNode) : bool :=
  match n with
  | Node f c0 c1 c2 c3 =>
      let x := Dyadic.of_float (TerrainNode.X f) in
      let z := Dyadic.of_float (TerrainNode.Z f) in
      exact_footprint_is c0 (exact_west f) x z (exact_north f)
      && exact_footprint_is c1 x (exact_east f) z (exact_north f)
      && exact_footprint_is c2 (exact_west f) x (exact_south f) z
      && exact_footprint_is c3 x (exact_east f) (exact_south f) z
  end.

(** The footprints of two nodes share more than an edge along the X axis:
    the east edge of the first lies strictly east of the west edge of the
    second, which lies east of the west edge of the first. *)
Definition overlap_along_x (a b : TerrainNode.fields) : bool :=
  Dyadic.ltb (exact_west b) (exact_east a)
  && Dyadic.ltb (exact_west a) (exact_west b).

(** *** Further test scenes *)

(** The camera at (12.7087097, 7, 767.894836). *)
Definition cameraNear768 : XMFLOAT3.t :=
  XMFLOAT3.mk (Float32.of_dyadic 13326048 (-20)) (Float32.of_int 7)
    (Float32.of_dyadic 12581189 (-14)).

(** [Initialize(1000.1f, 100, 5)] on a freshly constructed [QuadTree]. *)
Definition f1000_1 : float := Float32.of_dyadic 16385638 (-14).

Definition terrain1000_1 : QuadTree :=
  match Initialize QuadTree_new f1000_1 f100 5 with
  | Some q => q
  | None => QuadTree_new
  end.

Definition root1000_1 : TerrainNode :=
  match mRoot terrain1000_1 with
  | Some root => root
  | None => TerrainNode_new
  end.

(* ================================================================== *)
(** ** Facts about binary32 comparison *)

Lemma ltb_irrefl (a : float) : (a <? a)%f32 = false.
Proof.
  unfold Float32.ltb, SFltb.
  destruct a as [s | s | | s m e]; simpl; try reflexivity.
  - destruct s; reflexivity.
  - rewrite Z.compare_refl.
    assert (H : Pos.compare_cont Eq m m = Eq) by apply Pos.compare_cont_refl.
    destruct s; rewrite H; reflexivity.
Qed.

(** A value that is not above zero is not above a value that is. *)
Lemma nonpositive_not_above_positive (a b : float) :
  (f0 >=? a)%f32 = true -> (b >? f0)%f32 = true -> (a >? b)%f32 = false.
Proof.
  unfold Float32.geb, Float32.gtb, SFleb, SFltb, f0.
  destruct a as [sa | sa | | sa ma ea], b as [sb | sb | | sb mb eb];
    simpl; try discriminate; try reflexivity;
    try (destruct sa; simpl; try discriminate);
    try (destruct sb; simpl; try discriminate); reflexivity.
Qed.

(** Goals about the test scenes are closed by running the embedding. *)
Ltac conjuncts := repeat match goal with |- _ /\ _ => split end.
Ltac by_computation := vm_compute; reflexivity.

(* ================================================================== *)
(** ** Machine integers *)

Lemma wrap_int_range (z : Z) : -2147483648 <= wrap_int z < 2147483648.
Proof.
  unfold wrap_int.
  pose proof (Z.mod_pos_bound (z + 2147483648) 4294967296 eq_refl). lia.
Qed.

Lemma wrap_int_id (z : Z) :
  -2147483648 <= z < 2147483648 -> wrap_int z = z.
Proof.
  intros H. unfold wrap_int. rewrite Z.mod_small; lia.
Qed.

Lemma wrap_uint_id (z : Z) : 0 <= z < 4294967296 -> wrap_uint z = z.
Proof. intros H. unfold wrap_uint. now apply Z.mod_small. Qed.

(* ================================================================== *)
(** ** Walking the tree *)

Lemma everywhere_node_at (P : TerrainNode -> Prop) (n : TerrainNode) :
  everywhere P n -> forall p m, node_at n p = Some m -> P m.
Proof.
  induction n as [f c0 c1 c2 c3 IH0 IH1 IH2 IH3] using TerrainNode_tree_ind.
  intros (Hn & H0 & H1 & H2 & H3) [| i p] m.
  - simpl. intros E. injection E as <-. exact Hn.
  - simpl.
    destruct i as [| [| [| [| i]]]]; try discriminate.
    + destruct c0 as [c | ]; [apply (IH0 H0) | discriminate].
    + destruct c1 as [c | ]; [apply (IH1 H1) | discriminate].
    + destruct c2 as [c | ]; [apply (IH2 H2) | discriminate].
    + destruct c3 as [c | ]; [apply (IH3 H3) | discriminate].
Qed.

Lemma slot_owned (P : TerrainNode -> Prop) (c0 c1 c2 c3 : option TerrainNode)
    (i : nat) (m : TerrainNode) :
  opt_all P c0 -> opt_all P c1 -> opt_all P c2 -> opt_all P c3 ->
  In (i, Some m) (slots c0 c1 c2 c3) -> P m.
Proof.
  unfold slots. simpl.
  intros H0 H1 H2 H3 [E | [E | [E | [E | []]]]];
    inversion E; subst; assumption.
Qed.

Lemma slot_index_unique (c0 c1 c2 c3 : option TerrainNode) (i : nat)
    (a b : option TerrainNode) :
  In (i, a) (slots c0 c1 c2 c3) -> In (i, b) (slots c0 c1 c2 c3) -> a = b.
Proof.
  unfold slots. simpl.
  intros [E | [E | [E | [E | []]]]] [E' | [E' | [E' | [E' | []]]]];
    inversion E; inversion E'; subst; first [reflexivity | discriminate].
Qed.

Lemma mRoot_set_mRoot (r : option TerrainNode) (q : QuadTree) :
  mRoot (set_mRoot r q) = r.
Proof. destruct q; reflexivity. Qed.

(* ================================================================== *)
(** ** Construction *)

(** In a proof by induction on the fuel of [BuildTree]: name the result of
    every recursive call in the goal and instantiate [IH] for it. *)
Ltac build_calls IH fuel :=
  repeat match goal with
  | |- context [BuildTree fuel ?q0 TerrainNode_new ?x0 ?z0 ?s0 ?d0] =>
      let H := fresh "Hcall" in
      pose proof (IH q0 x0 z0 s0 d0) as H; cbv zeta in H;
      destruct (BuildTree fuel q0 TerrainNode_new x0 z0 s0 d0);
      cbn [fst snd] in H
  end.

Lemma BuildTree_leaf (fuel : nat) (q : QuadTree) (f : TerrainNode.fields)
    (c0 c1 c2 c3 : option TerrainNode) (x z size : float) (depth : int) :
  BuildTree_subdivides q size depth = false ->
  BuildTree fuel q (Node f c0 c1 c2 c3) x z size depth
  = (Node (set_IsLeaf true (BuildTree_stamp q f x z size depth)) c0 c1 c2 c3,
     set_mTotalNodeCount (wrap_int (mTotalNodeCount q + 1)) q).
Proof.
  intros H.
  assert (H' : BuildTree_subdivides
                 (set_mTotalNodeCount (wrap_int (mTotalNodeCount q + 1)) q)
                 size depth = false) by (destruct q; exact H).
  destruct fuel; simpl; rewrite H'; reflexivity.
Qed.

(** [BuildTree] on a fresh node: the node gets the centre and size it was
    called with, and every node of the result has the shape of
    [well_formed_node]. *)
Lemma BuildTree_well_formed (fuel : nat) :
  forall (q : QuadTree) (x z size : float) (depth : int),
    let n := fst (BuildTree fuel q TerrainNode_new x z size depth) in
    everywhere well_formed_node n /\
    TerrainNode.X (fields_of n) = x /\ TerrainNode.Z (fields_of n) = z /\
    TerrainNode.Size (fields_of n) = size.
Proof.
  induction fuel as [| fuel IH]; intros q x z size depth; cbv zeta; simpl.
  - destruct (BuildTree_subdivides _ size depth); simpl; repeat split.
  - destruct (BuildTree_subdivides _ size depth); [ | simpl; repeat split].
    build_calls IH fuel.
    repeat match goal with H : _ /\ _ |- _ => destruct H end.
    simpl. repeat split; try assumption.
    do 4 eexists. unfold quadrant_of. simpl.
    repeat split; first [reflexivity | assumption].
Qed.

(** [BuildTree] sets no visible flag. *)
Lemma BuildTree_invisible (fuel : nat) :
  forall (q : QuadTree) (x z size : float) (depth : int),
    everywhere invisible (fst (BuildTree fuel q TerrainNode_new x z size depth)).
Proof.
  induction fuel as [| fuel IH]; intros q x z size depth; simpl.
  - destruct (BuildTree_subdivides _ size depth); simpl; repeat split.
  - destruct (BuildTree_subdivides _ size depth); [ | simpl; repeat split].
    build_calls IH fuel.
    simpl. repeat split; assumption.
Qed.

(** *** The recursion bound of [BuildTree] *)

Lemma BuildTree_keeps_config (fuel : nat) :
  forall q x z size depth,
    let q' := snd (BuildTree fuel q TerrainNode_new x z size depth) in
    mMaxLODLevels q' = mMaxLODLevels q /\ mMinNodeSize q' = mMinNodeSize q.
Proof.
  induction fuel as [| fuel IH]; intros q x z size depth; cbv zeta; simpl.
  - destruct (BuildTree_subdivides _ size depth); destruct q; simpl; auto.
  - destruct (BuildTree_subdivides _ size depth);
      [ | destruct q; simpl; auto].
    build_calls IH fuel.
    repeat match goal with H : _ /\ _ |- _ => destruct H end.
    destruct q; simpl in *. split; congruence.
Qed.

Lemma subdivides_depth (q : QuadTree) (size : float) (depth : int) :
  BuildTree_subdivides q size depth = true ->
  depth < wrap_int (mMaxLODLevels q - 1).
Proof.
  unfold BuildTree_subdivides. intros H.
  apply andb_prop in H. destruct H as [_ H]. now apply Z.ltb_lt in H.
Qed.

(** More fuel than the levels that are left changes nothing: the branch of
    [BuildTree] that runs out of fuel is never taken from [Initialize], which
    starts at depth 0 with [mMaxLODLevels - 1] units. *)
Lemma BuildTree_fuel (fuel : nat) :
  forall fuel' q x z size depth,
    -2147483648 <= depth ->
    (Z.to_nat (wrap_int (mMaxLODLevels q - 1) - depth) <= fuel)%nat ->
    (Z.to_nat (wrap_int (mMaxLODLevels q - 1) - depth) <= fuel')%nat ->
    BuildTree fuel q TerrainNode_new x z size depth
    = BuildTree fuel' q TerrainNode_new x z size depth.
Proof.
  induction fuel as [| fuel IH]; intros fuel' q x z size depth Hd Hf Hf';
    (destruct fuel' as [| fuel']; [try reflexivity | ]); simpl;
    set (q1 := set_mTotalNodeCount (wrap_int (mTotalNodeCount q + 1)) q) in *;
    assert (Hq1 : mMaxLODLevels q1 = mMaxLODLevels q)
      by (destruct q; reflexivity);
    destruct (BuildTree_subdivides q1 size depth) eqn:Hsub;
    try reflexivity;
    apply subdivides_depth in Hsub; rewrite Hq1 in Hsub;
    try (exfalso; lia).
  pose proof (wrap_int_range (mMaxLODLevels q - 1)) as Hr.
  rewrite (wrap_int_id (depth + 1)) by lia.
  assert (step : forall qa xa za,
             mMaxLODLevels qa = mMaxLODLevels q ->
             BuildTree fuel qa TerrainNode_new xa za (size * f0_5)%f32
               (depth + 1)
             = BuildTree fuel' qa TerrainNode_new xa za (size * f0_5)%f32
                 (depth + 1)).
  { intros qa xa za Hqa. apply IH; rewrite ?Hqa; lia. }
  rewrite (step q1) by exact Hq1.
  pose proof (BuildTree_keeps_config fuel' q1 (x - size * f0_25)%f32
                (z + size * f0_25)%f32 (size * f0_5)%f32 (depth + 1))
    as [K1 _].
  destruct (BuildTree fuel' q1 _ _ _ _ _) as [n0 q2]. simpl in K1.
  rewrite (step q2) by congruence.
  pose proof (BuildTree_keeps_config fuel' q2 (x + size * f0_25)%f32
                (z + size * f0_25)%f32 (size * f0_5)%f32 (depth + 1))
    as [K2 _].
  destruct (BuildTree fuel' q2 _ _ _ _ _) as [n1 q3]. simpl in K2.
  rewrite (step q3) by congruence.
  pose proof (BuildTree_keeps_config fuel' q3 (x - size * f0_25)%f32
                (z - size * f0_25)%f32 (size * f0_5)%f32 (depth + 1))
    as [K3 _].
  destruct (BuildTree fuel' q3 _ _ _ _ _) as [n2 q4]. simpl in K3.
  rewrite (step q4) by congruence.
  reflexivity.
Qed.

(** *** [Initialize] *)

(** What a completed [Initialize] has done: it stored its arguments, reset
    the node count, settled the thresholds [ds] and ran [BuildTree] on a
    fresh root at the origin. *)
Lemma Initialize_inv (q0 q : QuadTree) (ts ms : float) (ml : int) :
  Initialize q0 ts ms ml = Some q ->
  exists ds,
    let q1 := mkQuadTree (mRoot q0) ts ms ml ds (mVisibleNodeCount q0) 0
                (mNextObjectCBIndex q0) in
    let r := BuildTree (Z.to_nat (wrap_int (ml - 1))) q1 TerrainNode_new
               f0 f0 ts 0 in
    q = set_mRoot (Some (fst r)) (snd r).
Proof.
  unfold Initialize. cbv zeta.
  destruct (match mLODDistances _ with [] => _ | _ :: _ => _ end) as [ds | ];
    [ | discriminate].
  intros E. exists ds. simpl in *.
  destruct (BuildTree _ _ _ _ _ _ _) as [root q1].
  injection E as <-. reflexivity.
Qed.

(** [Initialize] completes unless it has to size an empty threshold vector
    to a negative length. *)
Lemma Initialize_completes (q0 : QuadTree) (ts ms : float) (ml : int) :
  0 <= ml \/ mLODDistances q0 <> [] ->
  exists q, Initialize q0 ts ms ml = Some q.
Proof.
  intros Hml. unfold Initialize. cbv zeta. simpl.
  destruct (mLODDistances q0) as [| d ds].
  - destruct Hml as [Hml | Hml]; [ | now elim Hml].
    destruct (Z.ltb_spec ml 0) as [Hneg | _]; [lia | ].
    destruct (BuildTree _ _ _ _ _ _ _); eauto.
  - destruct (BuildTree _ _ _ _ _ _ _); eauto.
Qed.

(** The fuel [Initialize] passes on is enough. *)
Lemma Initialize_fuel (q1 : QuadTree) (ts : float) (fuel : nat) :
  (Z.to_nat (wrap_int (mMaxLODLevels q1 - 1)) <= fuel)%nat ->
  BuildTree fuel q1 TerrainNode_new f0 f0 ts 0
  = BuildTree (Z.to_nat (wrap_int (mMaxLODLevels q1 - 1))) q1 TerrainNode_new
      f0 f0 ts 0.
Proof.
  intros H. apply BuildTree_fuel; rewrite ?Z.sub_0_r; lia.
Qed.

(** [Initialize] always leaves a root behind, ... *)
Lemma Initialize_has_root (q0 q : QuadTree) (ts ms : float) (ml : int) :
  Initialize q0 ts ms ml = Some q -> exists root, mRoot q = Some root.
Proof.
  intros H. apply Initialize_inv in H. destruct H as [ds ->].
  cbv zeta. rewrite mRoot_set_mRoot. eauto.
Qed.

(** ... and no visible flag set. *)
Lemma Initialize_invisible (q0 q : QuadTree) (ts ms : float) (ml : int)
    (root : TerrainNode) :
  Initialize q0 ts ms ml = Some q -> mRoot q = Some root ->
  everywhere invisible root.
Proof.
  intros H. apply Initialize_inv in H. destruct H as [ds ->].
  cbv zeta. rewrite mRoot_set_mRoot. intros E. injection E as <-.
  apply BuildTree_invisible.
Qed.

Lemma terrain512_built : Initialize QuadTree_new f512 f64 5 = Some terrain512.
Proof. by_computation. Qed.

(** C2, as stated, fails: [Initialize(512, 64, 5)] does not build 341 nodes
    and the tree is not a complete quadtree of depth 4. *)
Lemma C2_not_341_nodes :
  Initialize QuadTree_new f512 f64 5 = Some terrain512 /\
  GetTotalNodeCount terrain512 <> 341 /\
  option_map (complete_quadtree 4) (mRoot terrain512) = Some false.
Proof.
  conjuncts; try by_computation.
  vm_compute. discriminate.
Qed.

(** C2, amended: after [Initialize(512, 64, 5)], whatever state the object was
    in, the tree is a complete quadtree of depth 3 (sizes 512, 256, 128, 64;
    a node of size 64 is not greater than the minimum and stays a leaf) and
    [GetTotalNodeCount()] returns 85 = 1 + 4 + 16 + 64. *)
Theorem C2_complete_depth_3_with_85_nodes (q0 : QuadTree) :
  exists q root,
    Initialize q0 f512 f64 5 = Some q /\ mRoot q = Some root /\
    complete_quadtree 3 root = true /\
    count_nodes root = 1 + 4 + 16 + 64 /\
    GetTotalNodeCount q = 85.
Proof.
  destruct q0 as [r a b c ds e f g].
  destruct ds as [| d ds]; do 2 eexists;
    (split; [by_computation | ]); conjuncts; by_computation.
Qed.

(** *** Degenerate configurations *)

(** C7, as stated, fails: a non-positive minimum node size, or a negative
    terrain size above a smaller minimum, subdivides down to the depth limit;
    and a negative level count makes [Initialize] throw while it resizes the
    empty threshold vector. *)
Lemma C7_nonpositive_sizes_still_subdivide :
  (f0 >=? f0)%f32 = true /\
  option_map GetTotalNodeCount (Initialize QuadTree_new f512 f0 5) = Some 341 /\
  ~ single_node_tree (Initialize QuadTree_new f512 f0 5) /\
  (f0 >=? fm1)%f32 = true /\ (f0 >=? Float32.of_int (-2))%f32 = true /\
  option_map GetTotalNodeCount
    (Initialize QuadTree_new fm1 (Float32.of_int (-2)) 5) = Some 341 /\
  ~ single_node_tree (Initialize QuadTree_new fm1 (Float32.of_int (-2)) 5) /\
  Initialize QuadTree_new fm1 f64 (-1) = None.
Proof.
  conjuncts; try by_computation.
  - intros (q & f & Hq & _ & _ & Hcount).
    assert (E : option_map GetTotalNodeCount
                  (Initialize QuadTree_new f512 f0 5) = Some 1)
      by now rewrite Hq, <- Hcount.
    vm_compute in E. discriminate.
  - intros (q & f & Hq & _ & _ & Hcount).
    assert (E : option_map GetTotalNodeCount
                  (Initialize QuadTree_new fm1 (Float32.of_int (-2)) 5) = Some 1)
      by now rewrite Hq, <- Hcount.
    vm_compute in E. discriminate.
Qed.

(** C7, amended: whenever the terrain size is not greater than the minimum
    node size -- in particular for every non-positive terrain size with a
    positive minimum node size -- and [Initialize] gets past its threshold
    vector (the level count is not negative, or thresholds were supplied),
    it produces a single-node tree: the root is a leaf without children and
    [GetTotalNodeCount()] returns 1. *)
Theorem C7_single_leaf_when_size_not_above_minimum :
  forall (q0 : QuadTree) (terrainSize minNodeSize : float) (maxLODLevels : int),
    0 <= maxLODLevels \/ mLODDistances q0 <> [] ->
    ((terrainSize >? minNodeSize)%f32 = false ->
     single_node_tree (Initialize q0 terrainSize minNodeSize maxLODLevels)) /\
    ((f0 >=? terrainSize)%f32 = true -> (minNodeSize >? f0)%f32 = true ->
     single_node_tree (Initialize q0 terrainSize minNodeSize maxLODLevels)).
Proof.
  intros q0 ts ms ml Hml.
  assert (main : (ts >? ms)%f32 = false ->
                 single_node_tree (Initialize q0 ts ms ml)).
  { intros Hsize.
    destruct (Initialize_completes q0 ts ms ml Hml) as [q Hq].
    rewrite Hq. apply Initialize_inv in Hq. destruct Hq as [ds ->].
    cbv zeta. unfold TerrainNode_new. rewrite BuildTree_leaf.
    - do 2 eexists. split; [reflexivity | ]. simpl. repeat split.
    - unfold BuildTree_subdivides. simpl. now rewrite Hsize. }
  split; [exact main | ].
  intros Hts Hms. apply main.
  now apply nonpositive_not_above_positive.
Qed.

(** C7 at terrain size -1, minimum node size 64, five levels. *)
Lemma C7_witness :
  (0 <= 5 \/ mLODDistances QuadTree_new <> []) /\
  (f0 >=? fm1)%f32 = true /\ (f64 >? f0)%f32 = true /\
  single_node_tree (Initialize QuadTree_new fm1 f64 5).
Proof.
  assert (H : 0 <= 5 \/ mLODDistances QuadTree_new <> []) by (left; lia).
  split; [exact H | split; [reflexivity | split; [reflexivity | ]]].
  exact (proj2 (C7_single_leaf_when_size_not_above_minimum
                  QuadTree_new fm1 f64 5 H) eq_refl eq_refl).
Defined.

(** *** The shape of the built tree *)

(** C9, as stated, fails.  [Initialize(1000.1f, 100, 5)] builds 341 nodes,
    85 of them with children.  The quarter of the size of the root is not a
    binary32 number once it is added to a centre, so the centres of the
    nodes below the root are rounded: of the 85 nodes with children only the
    root has children whose footprints split its own along the centre
    lines.  Below the north-west child of the root, the footprint of its
    north-west child reaches 2^-16 east of where the footprint of its
    north-east child begins: the two overlap. *)
Lemma C9_rounded_children_overlap :
  Initialize QuadTree_new f1000_1 f100 5 = Some terrain1000_1 /\
  mRoot terrain1000_1 = Some root1000_1 /\
  count_nodes root1000_1 = 341 /\
  map fst
    (filter (fun pn => negb (TerrainNode.IsLeaf (fields_of (snd pn)))
                       && children_tile_exactly (snd pn))
       (nodes_of root1000_1 []))
  = [[]] /\
  length (filter (fun pn => negb (TerrainNode.IsLeaf (fields_of (snd pn))))
            (nodes_of root1000_1 [])) = 85%nat /\
  match node_at root1000_1 [0]%nat,
        node_at root1000_1 [0; 0]%nat, node_at root1000_1 [0; 1]%nat with
  | Some n, Some nw, Some ne =>
      TerrainNode.IsLeaf (fields_of n) = false /\
      Children n 0 = Some nw /\ Children n 1 = Some ne /\
      children_tile_exactly n = false /\
      overlap_along_x (fields_of nw) (fields_of ne) = true /\
      Dyadic.sub (exact_east (fields_of nw)) (exact_west (fields_of ne))
      = Dyadic.mk 2 (-17)
  | _, _, _ => False
  end.
Proof.
  conjuncts; try by_computation.
  vm_compute. conjuncts; reflexivity.
Qed.

(** C9, amended: in a tree built by [Initialize] the root is centred at
    (0, 0) and has the terrain size; every node whose leaf flag is clear has
    exactly four children, in the slots NW, NE, SW, SE, each of size
    [S * 0.5f] and centred at [(x - q, z + q)], [(x + q, z + q)],
    [(x - q, z - q)], [(x + q, z - q)] with [q = S * 0.25f], every product,
    sum and difference rounded to binary32; a node has no children exactly
    when its leaf flag is set.  On the scenario terrain
    [Initialize(512, 64, 5)] no operation rounds, and the footprints of the
    four children of each of the 21 nodes with children split the footprint
    of their parent along its centre lines, in exact arithmetic: no gap, no
    overlap. *)
Theorem C9_children_are_the_rounded_quadrants :
  (forall (q0 q : QuadTree) (terrainSize minNodeSize : float)
          (maxLODLevels : int) (root : TerrainNode) (p : NodePtr)
          (f : TerrainNode.fields) (c0 c1 c2 c3 : option TerrainNode),
     Initialize q0 terrainSize minNodeSize maxLODLevels = Some q ->
     mRoot q = Some root ->
     node_at root p = Some (Node f c0 c1 c2 c3) ->
     (p = [] ->
      TerrainNode.X f = f0 /\ TerrainNode.Z f = f0 /\
      TerrainNode.Size f = terrainSize) /\
     (TerrainNode.IsLeaf f = false -> four_quadrants f c0 c1 c2 c3) /\
     (no_children (Node f c0 c1 c2 c3) = true <-> TerrainNode.IsLeaf f = true)) /\
  (Initialize QuadTree_new f512 f64 5 = Some terrain512 /\
   mRoot terrain512 = Some root512 /\
   forallb (fun pn =>
     TerrainNode.IsLeaf (fields_of (snd pn)) || children_tile_exactly (snd pn))
     (nodes_of root512 []) = true /\
   length (filter (fun pn => negb (TerrainNode.IsLeaf (fields_of (snd pn))))
             (nodes_of root512 [])) = 21%nat).
Proof.
  split; [ | conjuncts; by_computation].
  intros q0 q ts ms ml root p f c0 c1 c2 c3 Hinit Hroot Hat.
  apply Initialize_inv in Hinit. destruct Hinit as [ds ->].
  cbv zeta in Hroot. rewrite mRoot_set_mRoot in Hroot.
  injection Hroot as <-.
  match type of Hat with
  | context [BuildTree ?fuel ?qa TerrainNode_new ?x ?z ?s ?d] =>
      destruct (BuildTree_well_formed fuel qa x z s d)
        as (Hall & HX & HZ & HS)
  end.
  assert (Hwf : well_formed_node (Node f c0 c1 c2 c3))
    by exact (everywhere_node_at _ _ Hall _ _ Hat).
  split.
  - intros ->. simpl in Hat. injection Hat as Hat.
    rewrite Hat in HX, HZ, HS. simpl in HX, HZ, HS. auto.
  - simpl in Hwf. destruct (TerrainNode.IsLeaf f).
    + destruct Hwf as (-> & -> & -> & ->). simpl.
      split; [discriminate | split; reflexivity].
    + split; [intros _; exact Hwf | ].
      destruct Hwf as (n0 & n1 & n2 & n3 & -> & -> & -> & -> & _).
      simpl. split; discriminate.
Qed.

(** C9 at the north-east child of the root of the scenario terrain. *)
Lemma C9_witness :
  Initialize QuadTree_new f512 f64 5 = Some terrain512 /\
  mRoot terrain512 = Some root512 /\
  (exists f c0 c1 c2 c3,
     node_at root512 [1%nat] = Some (Node f c0 c1 c2 c3) /\
     TerrainNode.IsLeaf f = false /\ four_quadrants f c0 c1 c2 c3).
Proof.
  split; [reflexivity | split; [reflexivity | ]].
  destruct (node_at root512 [1%nat]) as [[f c0 c1 c2 c3] | ] eqn:Hat;
    [ | vm_compute in Hat; discriminate].
  assert (Hleaf : TerrainNode.IsLeaf f = false).
  { vm_compute in Hat. injection Hat as <- _ _ _ _. reflexivity. }
  exists f, c0, c1, c2, c3. split; [reflexivity | split; [exact Hleaf | ]].
  exact (proj1 (proj2 (proj1 C9_children_are_the_rounded_quadrants
                         QuadTree_new terrain512 f512 f64 5 root512
                         [1%nat] f c0 c1 c2 c3 eq_refl eq_refl Hat)) Hleaf).
Defined.

(** The tiling behind the quadrants, in exact arithmetic: four squares of
    half the side, centred a quarter of the side away from the centre of the
    parent along both axes, cover the parent and are pairwise disjoint.
    Binary32 values are dyadic, so as long as the products and sums of
    [BuildTree] are exact a power of two scales the centres and sizes of C9
    to these integers (side [4 * k]). *)
Lemma quadrants_tile_exactly (x z k px pz : Z) :
  0 < k ->
  let NW := in_square (x - k) (z + k) (2 * k) px pz in
  let NE := in_square (x + k) (z + k) (2 * k) px pz in
  let SW := in_square (x - k) (z - k) (2 * k) px pz in
  let SE := in_square (x + k) (z - k) (2 * k) px pz in
  (in_square x z (4 * k) px pz <-> NW \/ NE \/ SW \/ SE) /\
  ~ (NW /\ NE) /\ ~ (NW /\ SW) /\ ~ (NW /\ SE) /\
  ~ (NE /\ SW) /\ ~ (NE /\ SE) /\ ~ (SW /\ SE).
Proof.
  intros Hk. unfold in_square. cbv zeta. lia.
Qed.

(** On the scenario terrain all sizes and centres are exact in binary32, and
    the footprints of the four children of each of the 21 internal nodes
    split the footprint of the parent along its centre lines. *)
Example terrain512_children_tile :
  forallb (fun pn =>
    TerrainNode.IsLeaf (fields_of (snd pn)) || children_tile (snd pn))
    (nodes_of root512 []) = true /\
  length (filter (fun pn => negb (TerrainNode.IsLeaf (fields_of (snd pn))))
            (nodes_of root512 [])) = 21%nat.
Proof. split; by_computation. Qed.

(* ================================================================== *)
(** ** Before [Initialize] *)

(** C10: on a [QuadTree] that has no root yet, [Update] only resets the two
    frame counters (so a freshly constructed object stays as constructed and
    reports 0 visible nodes) and [GetVisibleNodes] empties the vector of the
    caller, whatever it held. *)
Theorem C10_calls_before_Initialize :
  forall (cameraPos : XMFLOAT3.t) (frustumPlanes : Planes)
         (outNodes : list NodePtr),
    (forall ts ms ml ds vc tc ni,
        let q := mkQuadTree None ts ms ml ds vc tc ni in
        Update cameraPos frustumPlanes q = mkQuadTree None ts ms ml ds 0 tc 0 /\
        GetVisibleNodes q outNodes = [] /\
        GetVisibleNodes (Update cameraPos frustumPlanes q) outNodes = []) /\
    mRoot QuadTree_new = None /\
    Update cameraPos frustumPlanes QuadTree_new = QuadTree_new /\
    GetVisibleNodeCount (Update cameraPos frustumPlanes QuadTree_new) = 0 /\
    GetVisibleNodes QuadTree_new outNodes = [] /\
    GetVisibleNodes (Update cameraPos frustumPlanes QuadTree_new) outNodes = [].
Proof.
  intros cameraPos frustumPlanes outNodes.
  repeat split; reflexivity.
Qed.

(* ================================================================== *)
(** ** Height range *)

(** C8: [SetHeightRange] rewrites four members of the root and nothing else:
    [MinY], [MaxY], the vertical centre [(minY + maxY) * 0.5] and the
    vertical extent [(maxY - minY) * 0.5 + 10] of its box.  The children, the
    other members of the root and of the [QuadTree] stay as they were, and
    the arguments [x], [z] and [size] are not looked at. *)
Theorem C8_SetHeightRange_touches_root_heights_only :
  forall (q : QuadTree) (x z size minY maxY : float)
         (f : TerrainNode.fields) (c0 c1 c2 c3 : option TerrainNode),
    mRoot q = Some (Node f c0 c1 c2 c3) ->
    let b := TerrainNode.Bounds f in
    let f' :=
      TerrainNode.mkFields
        (TerrainNode.X f) (TerrainNode.Z f) (TerrainNode.Size f)
        (TerrainNode.LODLevel f) (TerrainNode.MaxLOD f)
        (mkBoundingBoxAABB
           (XMFLOAT3.mk (XMFLOAT3.x (Center b)) ((minY + maxY) * f0_5)%f32
              (XMFLOAT3.z (Center b)))
           (XMFLOAT3.mk (XMFLOAT3.x (Extents b))
              ((maxY - minY) * f0_5 + f10)%f32 (XMFLOAT3.z (Extents b))))
        minY maxY
        (TerrainNode.IsLeaf f) (TerrainNode.IsVisible f)
        (TerrainNode.ObjectCBIndex f) in
    SetHeightRange x z size minY maxY q
      = mkQuadTree (Some (Node f' c0 c1 c2 c3)) (mTerrainSize q)
          (mMinNodeSize q) (mMaxLODLevels q) (mLODDistances q)
          (mVisibleNodeCount q) (mTotalNodeCount q) (mNextObjectCBIndex q)
    /\ forall x' z' size' : float,
         SetHeightRange x' z' size' minY maxY q
         = SetHeightRange x z size minY maxY q.
Proof.
  intros q x z size minY maxY f c0 c1 c2 c3 Hroot b f'.
  unfold SetHeightRange. rewrite Hroot. split; [ | reflexivity].
  subst b f'. destruct q; destruct f as [? ? ? ? ? [ctr ext] ? ? ? ? ?].
  reflexivity.
Qed.

(** C8 at the terrain of the scenario, height range [-20, 300]. *)
Lemma C8_witness :
  mRoot terrain512
  = Some (Node (fields_of root512) (Children root512 0) (Children root512 1)
            (Children root512 2) (Children root512 3)) /\
  SetHeightRange f0 f0 f512 (Float32.of_int (-20)) (Float32.of_int 300)
    terrain512
  = set_mRoot
      (Some (Node (set_height (Float32.of_int (-20)) (Float32.of_int 300)
                     (fields_of root512))
               (Children root512 0) (Children root512 1)
               (Children root512 2) (Children root512 3))) terrain512 /\
  forall x' z' size' : float,
    SetHeightRange x' z' size' (Float32.of_int (-20)) (Float32.of_int 300)
      terrain512
    = SetHeightRange f0 f0 f512 (Float32.of_int (-20)) (Float32.of_int 300)
        terrain512.
Proof.
  split; [reflexivity | ].
  exact (C8_SetHeightRange_touches_root_heights_only terrain512
           f0 f0 f512 (Float32.of_int (-20)) (Float32.of_int 300)
           (fields_of root512) (Children root512 0) (Children root512 1)
           (Children root512 2) (Children root512 3) eq_refl).
Defined.

(* ================================================================== *)
(** ** Collection *)

(** One child slot in the loop of [CollectVisibleNodes]. *)
Lemma collect_slot (self : NodePtr) (i : nat) (c : option TerrainNode)
    (acc : list NodePtr) :
  opt_all (fun n => forall self out,
             CollectVisibleNodes n self out
             = out ++ CollectVisibleNodes n self []) c ->
  match c with
  | Some m => CollectVisibleNodes m (self ++ [i]) acc
  | None => acc
  end = acc ++ collected_below self (i, c).
Proof.
  destruct c as [m | ]; unfold collected_below; simpl; intros IH.
  - apply IH.
  - now rewrite app_nil_r.
Qed.

(** [push_back] only appends: the vector passed in is a prefix of the
    result. *)
Lemma CollectVisibleNodes_app (n : TerrainNode) :
  forall self out,
    CollectVisibleNodes n self out = out ++ CollectVisibleNodes n self [].
Proof.
  induction n as [f c0 c1 c2 c3 IH0 IH1 IH2 IH3] using TerrainNode_tree_ind.
  intros self out. simpl.
  destruct (TerrainNode.IsVisible f); [reflexivity | ].
  destruct (TerrainNode.IsLeaf f); simpl; [now rewrite app_nil_r | ].
  rewrite !(collect_slot self 3 c3 _ IH3), !(collect_slot self 2 c2 _ IH2),
    !(collect_slot self 1 c1 _ IH1), !(collect_slot self 0 c0 _ IH0).
  simpl. now rewrite !app_assoc.
Qed.

(** [CollectVisibleNodes] without its accumulator. *)
Lemma CollectVisibleNodes_unfold (f : TerrainNode.fields)
    (c0 c1 c2 c3 : option TerrainNode) (self : NodePtr) :
  CollectVisibleNodes (Node f c0 c1 c2 c3) self [] =
  if TerrainNode.IsVisible f then [self]
  else if TerrainNode.IsLeaf f then []
  else flat_map (collected_below self) (slots c0 c1 c2 c3).
Proof.
  simpl. destruct (TerrainNode.IsVisible f); [reflexivity | ].
  destruct (TerrainNode.IsLeaf f); [reflexivity | ]. simpl.
  assert (all : forall c, opt_all (fun n => forall self out,
                  CollectVisibleNodes n self out
                  = out ++ CollectVisibleNodes n self []) c)
    by (intros [m | ]; simpl; [apply CollectVisibleNodes_app | exact I]).
  rewrite !(collect_slot self 3 c3 _ (all c3)),
    !(collect_slot self 2 c2 _ (all c2)),
    !(collect_slot self 1 c1 _ (all c1)),
    !(collect_slot self 0 c0 _ (all c0)).
  simpl. now rewrite app_nil_r, !app_assoc.
Qed.

(** Every handle collected below a node passes through that node. *)
Lemma collected_extend_self (n : TerrainNode) :
  forall self p,
    In p (CollectVisibleNodes n self []) -> exists rest, p = self ++ rest.
Proof.
  induction n as [f c0 c1 c2 c3 IH0 IH1 IH2 IH3] using TerrainNode_tree_ind.
  intros self p. rewrite CollectVisibleNodes_unfold.
  destruct (TerrainNode.IsVisible f).
  - intros [<- | []]. exists []. now rewrite app_nil_r.
  - destruct (TerrainNode.IsLeaf f); [intros [] | ].
    rewrite in_flat_map. intros [[i [m | ]] [Hslot Hp]];
      unfold collected_below in Hp; simpl in Hp; [ | destruct Hp].
    apply (slot_owned _ _ _ _ _ _ _ IH0 IH1 IH2 IH3 Hslot) in Hp.
    destruct Hp as [rest ->]. exists ([i] ++ rest). now rewrite app_assoc.
Qed.

(** Collection stops at the first visible node of every branch. *)
Lemma collected_no_ancestor (n : TerrainNode) :
  forall self p1 p2,
    In p1 (CollectVisibleNodes n self []) ->
    In p2 (CollectVisibleNodes n self []) ->
    ~ is_ancestor p1 p2.
Proof.
  induction n as [f c0 c1 c2 c3 IH0 IH1 IH2 IH3] using TerrainNode_tree_ind.
  intros self p1 p2. rewrite CollectVisibleNodes_unfold.
  destruct (TerrainNode.IsVisible f).
  - intros [<- | []] [<- | []] [rest [Hne E]].
    apply Hne. rewrite <- (app_nil_r self) in E at 1.
    now apply app_inv_head in E.
  - destruct (TerrainNode.IsLeaf f); [intros [] | ].
    rewrite !in_flat_map.
    intros [[i [m1 | ]] [Hs1 Hp1]] [[j [m2 | ]] [Hs2 Hp2]];
      unfold collected_below in Hp1, Hp2; simpl in Hp1, Hp2;
      try contradiction.
    destruct (Nat.eq_dec i j) as [<- | Hij].
    + assert (E : Some m1 = Some m2)
        by exact (slot_index_unique _ _ _ _ _ _ _ Hs1 Hs2).
      injection E as <-.
      exact (slot_owned _ _ _ _ _ _ _ IH0 IH1 IH2 IH3 Hs1 _ _ _ Hp1 Hp2).
    + apply collected_extend_self in Hp1. apply collected_extend_self in Hp2.
      destruct Hp1 as [r1 ->]. destruct Hp2 as [r2 ->].
      intros [rest [_ E]]. rewrite <- !app_assoc in E.
      apply app_inv_head in E. simpl in E. injection E as E _.
      apply Hij. now symmetry.
Qed.

(** Nothing is collected from a tree without a visible flag. *)
Lemma collect_invisible (n : TerrainNode) :
  everywhere invisible n -> forall self, CollectVisibleNodes n self [] = [].
Proof.
  induction n as [f c0 c1 c2 c3 IH0 IH1 IH2 IH3] using TerrainNode_tree_ind.
  intros (Hn & H0 & H1 & H2 & H3) self.
  rewrite CollectVisibleNodes_unfold.
  unfold invisible in Hn. simpl in Hn. rewrite Hn.
  destruct (TerrainNode.IsLeaf f); [reflexivity | ].
  unfold slots, collected_below. simpl.
  destruct c0 as [m0 | ], c1 as [m1 | ], c2 as [m2 | ], c3 as [m3 | ]; simpl;
    rewrite ?(IH0 H0), ?(IH1 H1), ?(IH2 H2), ?(IH3 H3); reflexivity.
Qed.

(** Handles are relative: collecting at address [self] prefixes [self]. *)
Lemma CollectVisibleNodes_shift (n : TerrainNode) :
  forall self,
    CollectVisibleNodes n self [] = map (app self) (CollectVisibleNodes n [] []).
Proof.
  induction n as [f c0 c1 c2 c3 IH0 IH1 IH2 IH3] using TerrainNode_tree_ind.
  intros self. rewrite !CollectVisibleNodes_unfold.
  destruct (TerrainNode.IsVisible f); [simpl; now rewrite app_nil_r | ].
  destruct (TerrainNode.IsLeaf f); [reflexivity | ].
  assert (step : forall i c,
            opt_all (fun n => forall self,
              CollectVisibleNodes n self []
              = map (app self) (CollectVisibleNodes n [] [])) c ->
            collected_below self (i, c)
            = map (app self) (collected_below [] (i, c))).
  { intros i [m | ] IH; unfold collected_below; simpl; [ | reflexivity].
    rewrite (IH (self ++ [i])), (IH [i]), map_map.
    apply map_ext. intros p. now rewrite <- app_assoc. }
  unfold slots. simpl.
  rewrite (step 0%nat c0 IH0), (step 1%nat c1 IH1), (step 2%nat c2 IH2),
    (step 3%nat c3 IH3).
  now rewrite !map_app.
Qed.

(** C6: after any sequence of [Update] calls, on any tree, no handle returned
    by [GetVisibleNodes] is a proper ancestor of another returned handle:
    [CollectVisibleNodes] does not descend below a node it has pushed. *)
Theorem C6_no_ancestor_descendant_pair :
  forall (q : QuadTree) (calls : list (XMFLOAT3.t * Planes))
         (outNodes : list NodePtr) (p1 p2 : NodePtr),
    In p1 (GetVisibleNodes (Updates calls q) outNodes) ->
    In p2 (GetVisibleNodes (Updates calls q) outNodes) ->
    ~ is_ancestor p1 p2.
Proof.
  intros q calls outNodes p1 p2. unfold GetVisibleNodes.
  destruct (mRoot (Updates calls q)) as [root | ]; [ | intros []].
  apply collected_no_ancestor.
Qed.

(** C6 on the two frames [acceptAll], [eastOnly] of the scenario terrain. *)
Lemma C6_witness :
  let visible :=
    GetVisibleNodes
      (Updates [(cameraCenter, acceptAll); (cameraCenter, eastOnly)] terrain512)
      [] in
  In [0; 0]%nat visible /\ In [0; 1]%nat visible /\
  ~ is_ancestor [0; 0]%nat [0; 1]%nat.
Proof.
  cbv zeta.
  assert (H1 : In [0; 0]%nat (GetVisibleNodes
      (Updates [(cameraCenter, acceptAll); (cameraCenter, eastOnly)] terrain512)
      [])) by (vm_compute; left; reflexivity).
  assert (H2 : In [0; 1]%nat (GetVisibleNodes
      (Updates [(cameraCenter, acceptAll); (cameraCenter, eastOnly)] terrain512)
      [])) by (vm_compute; right; left; reflexivity).
  split; [exact H1 | split; [exact H2 | ]].
  exact (C6_no_ancestor_descendant_pair terrain512
           [(cameraCenter, acceptAll); (cameraCenter, eastOnly)] [] _ _ H1 H2).
Defined.

(* ================================================================== *)
(** ** The subdivision decision *)

Section Frame.

Variable cameraPos : XMFLOAT3.t.
Variable frustumPlanes : Planes.

(** [UpdateNode], branch by branch. *)
Lemma UpdateNode_unfold (f : TerrainNode.fields)
    (c0 c1 c2 c3 : option TerrainNode) (q : QuadTree) :
  UpdateNode cameraPos frustumPlanes (Node f c0 c1 c2 c3) q =
  if Intersects (TerrainNode.Bounds f) frustumPlanes then
    let f' := set_LODLevel (CalculateLOD q f cameraPos) f in
    if negb (TerrainNode.IsLeaf f)
       && (horizontalDistance f cameraPos <? TerrainNode.Size f * f1_5)%f32
    then
      let r0 := visit_child (UpdateNode cameraPos frustumPlanes) c0 q in
      let r1 := visit_child (UpdateNode cameraPos frustumPlanes) c1 (snd r0) in
      let r2 := visit_child (UpdateNode cameraPos frustumPlanes) c2 (snd r1) in
      let r3 := visit_child (UpdateNode cameraPos frustumPlanes) c3 (snd r2) in
      (Node (set_IsVisible false f') (fst r0) (fst r1) (fst r2) (fst r3), snd r3)
    else
      (Node (set_ObjectCBIndex (mNextObjectCBIndex q) (set_IsVisible true f'))
         c0 c1 c2 c3,
       set_mVisibleNodeCount (wrap_int (mVisibleNodeCount q + 1))
         (set_mNextObjectCBIndex (wrap_uint (mNextObjectCBIndex q + 1)) q))
  else (Node (set_IsVisible false f) c0 c1 c2 c3, q).
Proof.
  simpl.
  replace (TerrainNode.IsVisible
             (set_IsVisible (Intersects (TerrainNode.Bounds f) frustumPlanes) f))
    with (Intersects (TerrainNode.Bounds f) frustumPlanes)
    by (destruct f; reflexivity).
  destruct (Intersects (TerrainNode.Bounds f) frustumPlanes); simpl;
    [ | reflexivity].
  replace (TerrainNode.IsLeaf
             (set_LODLevel (CalculateLOD q (set_IsVisible true f) cameraPos)
                (set_IsVisible true f)))
    with (TerrainNode.IsLeaf f) by (destruct f; reflexivity).
  replace (ShouldSubdivide
             (set_LODLevel (CalculateLOD q (set_IsVisible true f) cameraPos)
                (set_IsVisible true f)) cameraPos)
    with (if TerrainNode.IsLeaf f then false
          else (horizontalDistance f cameraPos <? TerrainNode.Size f * f1_5)%f32)
    by (destruct f; reflexivity).
  replace (CalculateLOD q (set_IsVisible true f) cameraPos)
    with (CalculateLOD q f cameraPos) by (destruct f; reflexivity).
  destruct (TerrainNode.IsLeaf f); simpl.
  - unfold activate. f_equal. f_equal. destruct f; reflexivity.
  - destruct (horizontalDistance f cameraPos <? TerrainNode.Size f * f1_5)%f32.
    + destruct (visit_child _ c0 q) as [c0' q0]; cbn [fst snd].
      destruct (visit_child _ c1 q0) as [c1' q1]; cbn [fst snd].
      destruct (visit_child _ c2 q1) as [c2' q2]; cbn [fst snd].
      destruct (visit_child _ c3 q2) as [c3' q3]; cbn [fst snd].
      f_equal. f_equal. destruct f; reflexivity.
    + unfold activate. f_equal. f_equal. destruct f; reflexivity.
Qed.

Lemma visit_child_fst (c : option TerrainNode) (q : QuadTree) :
  fst (visit_child (UpdateNode cameraPos frustumPlanes) c q)
  = option_map (fun n => fst (UpdateNode cameraPos frustumPlanes n q)) c.
Proof.
  destruct c as [n | ]; simpl; [ | reflexivity].
  destruct (UpdateNode cameraPos frustumPlanes n q); reflexivity.
Qed.

(** [Update] on a tree with a root. *)
Lemma Update_unfold (q : QuadTree) (root : TerrainNode) :
  mRoot q = Some root ->
  let r := UpdateNode cameraPos frustumPlanes root
             (set_mNextObjectCBIndex 0 (set_mVisibleNodeCount 0 q)) in
  Update cameraPos frustumPlanes q = set_mRoot (Some (fst r)) (snd r).
Proof.
  intros Hroot. cbv zeta. unfold Update.
  replace (mRoot (set_mNextObjectCBIndex 0 (set_mVisibleNodeCount 0 q)))
    with (Some root) by (destruct q; simpl in *; congruence).
  destruct (UpdateNode _ _ root _) as [root' q']. reflexivity.
Qed.

End Frame.

Lemma recursed_into_visit_child (cameraPos : XMFLOAT3.t)
    (frustumPlanes : Planes) (c : option TerrainNode) (q : QuadTree) :
  visit_child (UpdateNode cameraPos frustumPlanes) c q
  = recursed_into cameraPos frustumPlanes c q.
Proof.
  destruct c as [n | ]; simpl; [ | reflexivity].
  now destruct (UpdateNode cameraPos frustumPlanes n q).
Qed.

(** C5, as stated, fails.  The root of the scenario terrain has size 512 and
    centre (0, 0); the camera at (12.7087097, 7, 767.894836) lies at a
    horizontal distance that is strictly below 1.5 * 512 = 768 in exact
    arithmetic, yet the distance the code computes in binary32 rounds to 768,
    the comparison fails, and the root is used as it is, not subdivided. *)
Lemma C5_exact_distance_below_the_bound_is_not_subdivided :
  let f := fields_of root512 in
  let result := UpdateNode cameraNear768 acceptAll root512 terrain512 in
  TerrainNode.IsLeaf f = false /\
  Intersects (TerrainNode.Bounds f) acceptAll = true /\
  exactly_closer_than_one_and_a_half_sizes f cameraNear768 = true /\
  TerrainNode.IsVisible (fields_of (fst result)) = true /\
  Children (fst result) 0 = Children root512 0 /\
  Children (fst result) 1 = Children root512 1 /\
  Children (fst result) 2 = Children root512 2 /\
  Children (fst result) 3 = Children root512 3 /\
  GetVisibleNodes (Update cameraNear768 acceptAll terrain512) [] = [[]].
Proof. cbv zeta. conjuncts; by_computation. Qed.

(** C5, amended: on a non-leaf node that passes the frustum test,
    [UpdateNode] subdivides exactly when the binary32 number
    [sqrtf(dx * dx + dz * dz)], with [dx = cameraPos.x - X] and
    [dz = cameraPos.z - Z] and every operation rounded to nearest, is
    strictly below the binary32 product [Size * 1.5f].  Subdividing clears
    the visible flag and repeats the procedure on the four children in the
    order NW, NE, SW, SE, each child starting from the counters the one
    before it left; otherwise the node keeps its flag, takes the next render
    slot and its children are not touched.  When the computed distance
    equals the product the node is used as it is.  On the scenario terrain
    the root (size 512) is used as it is with the camera at (768, 0, 0), at
    exact distance 768, and subdivided into its four children with the
    camera one binary32 step closer. *)
Theorem C5_subdivides_iff_computed_distance_below_threshold :
  (forall (cameraPos : XMFLOAT3.t) (frustumPlanes : Planes) (q : QuadTree)
          (f : TerrainNode.fields) (c0 c1 c2 c3 : option TerrainNode),
     TerrainNode.IsLeaf f = false ->
     Intersects (TerrainNode.Bounds f) frustumPlanes = true ->
     let dx := (XMFLOAT3.x cameraPos - TerrainNode.X f)%f32 in
     let dz := (XMFLOAT3.z cameraPos - TerrainNode.Z f)%f32 in
     let distance := Float32.sqrtf (dx * dx + dz * dz)%f32 in
     let threshold := (TerrainNode.Size f * f1_5)%f32 in
     let result := UpdateNode cameraPos frustumPlanes (Node f c0 c1 c2 c3) q in
     let f' := set_LODLevel (CalculateLOD q f cameraPos) f in
     let r0 := recursed_into cameraPos frustumPlanes c0 q in
     let r1 := recursed_into cameraPos frustumPlanes c1 (snd r0) in
     let r2 := recursed_into cameraPos frustumPlanes c2 (snd r1) in
     let r3 := recursed_into cameraPos frustumPlanes c3 (snd r2) in
     let subdivided :=
       (Node (set_IsVisible false f') (fst r0) (fst r1) (fst r2) (fst r3),
        snd r3) in
     let used_as_it_is :=
       (Node (set_ObjectCBIndex (mNextObjectCBIndex q) (set_IsVisible true f'))
          c0 c1 c2 c3,
        set_mVisibleNodeCount (wrap_int (mVisibleNodeCount q + 1))
          (set_mNextObjectCBIndex (wrap_uint (mNextObjectCBIndex q + 1)) q)) in
     (TerrainNode.IsVisible (fields_of (fst result)) = false
      <-> (distance <? threshold)%f32 = true) /\
     ((distance <? threshold)%f32 = true -> result = subdivided) /\
     ((distance <? threshold)%f32 = false -> result = used_as_it_is) /\
     (distance = threshold -> result = used_as_it_is)) /\
  (let f := fields_of root512 in
   TerrainNode.X f = f0 /\ TerrainNode.Z f = f0 /\ TerrainNode.Size f = f512 /\
   (TerrainNode.Size f * f1_5)%f32 = f768 /\
   cameraAt768 = XMFLOAT3.mk f768 f0 f0 /\
   exactly_closer_than_one_and_a_half_sizes f cameraAt768 = false /\
   GetVisibleNodes (Update cameraAt768 acceptAll terrain512) [] = [[]] /\
   cameraBelow768
   = XMFLOAT3.mk (SFpred Float32.prec Float32.emax f768) f0 f0 /\
   exactly_closer_than_one_and_a_half_sizes f cameraBelow768 = true /\
   GetVisibleNodes (Update cameraBelow768 acceptAll terrain512) []
   = [[0]; [1]; [2]; [3]]%nat).
Proof.
  split; [ | cbv zeta; conjuncts; by_computation].
  intros cameraPos frustumPlanes q f c0 c1 c2 c3 Hleaf Hin
         dx dz distance threshold result f' r0 r1 r2 r3
         subdivided used_as_it_is.
  assert (Hresult : result = if (distance <? threshold)%f32 then subdivided
                             else used_as_it_is).
  { subst result subdivided used_as_it_is r3 r2 r1 r0.
    rewrite UpdateNode_unfold, Hin, Hleaf.
    cbv zeta. simpl negb. rewrite andb_true_l.
    rewrite !recursed_into_visit_child.
    unfold horizontalDistance. fold dx dz distance threshold f'.
    reflexivity. }
  pose proof (ltb_irrefl threshold) as Hirr.
  destruct (distance <? threshold)%f32 eqn:Hlt.
  - split; [ | split; [ | split]].
    + split; [reflexivity | intros _].
      rewrite Hresult. subst subdivided f'. destruct f; reflexivity.
    + intros _. exact Hresult.
    + discriminate.
    + intros E. rewrite E in Hlt. congruence.
  - split; [ | split; [ | split]].
    + split; [ | discriminate].
      rewrite Hresult. subst used_as_it_is f'. destruct f; simpl.
      discriminate.
    + discriminate.
    + intros _. exact Hresult.
    + intros _. exact Hresult.
Qed.

(** C5 at the root of the scenario terrain, camera at horizontal distance
    768 = 1.5 * 512. *)
Lemma C5_witness :
  TerrainNode.IsLeaf (fields_of root512) = false /\
  Intersects (TerrainNode.Bounds (fields_of root512)) acceptAll = true /\
  (TerrainNode.IsVisible
     (fields_of (fst (UpdateNode cameraAt768 acceptAll root512 terrain512)))
   = false
   <-> (Float32.sqrtf
          ((XMFLOAT3.x cameraAt768 - TerrainNode.X (fields_of root512))
           * (XMFLOAT3.x cameraAt768 - TerrainNode.X (fields_of root512))
           + (XMFLOAT3.z cameraAt768 - TerrainNode.Z (fields_of root512))
             * (XMFLOAT3.z cameraAt768 - TerrainNode.Z (fields_of root512)))
        <? TerrainNode.Size (fields_of root512) * f1_5)%f32 = true).
Proof.
  split; [reflexivity | split; [reflexivity | ]].
  exact (proj1 (proj1 C5_subdivides_iff_computed_distance_below_threshold
                  cameraAt768 acceptAll terrain512 (fields_of root512)
                  (Children root512 0) (Children root512 1)
                  (Children root512 2) (Children root512 3)
                  eq_refl eq_refl)).
Defined.

(** The boundary on the scenario terrain: at horizontal distance exactly
    768 = 1.5 * 512 the root is the one selected node; one binary32 step
    closer it hands over to its four children. *)
Example root_at_768_is_used :
  horizontalDistance (fields_of root512) cameraAt768
  = (TerrainNode.Size (fields_of root512) * f1_5)%f32 /\
  GetVisibleNodes (Update cameraAt768 acceptAll terrain512) [] = [[]].
Proof. split; by_computation. Qed.

Example root_below_768_is_subdivided :
  SFpred Float32.prec Float32.emax f768 = below768 /\
  horizontalDistance (fields_of root512) cameraBelow768 = below768 /\
  GetVisibleNodes (Update cameraBelow768 acceptAll terrain512) []
  = [[0]; [1]; [2]; [3]]%nat.
Proof. conjuncts; by_computation. Qed.

(* ================================================================== *)
(** ** The end-to-end scenario: camera above the terrain centre *)

(** C3, as stated, fails: with the camera at (0, 1000, 0) and an all-accepting
    frustum, the root is not the one active node. *)
Lemma C3_root_is_not_the_active_node :
  GetVisibleNodeCount (Update cameraAbove acceptAll terrain512) <> 1 /\
  GetVisibleNodes (Update cameraAbove acceptAll terrain512) [] <> [[]].
Proof. split; vm_compute; discriminate. Qed.

(** C3, amended: after [Initialize(512, 64, 5)] with default thresholds, the
    camera at (0, 1000, 0) and a frustum that accepts every node, [Update]
    yields 28 active nodes, the root not among them: sixteen leaves of size
    64 and twelve nodes of size 128, each at LOD level 0.  The subdivision
    test measures the horizontal distance, which is 0 for the root and so
    less than 512 * 1.5 = 768; the height 1000 only enters the LOD level,
    and 950 lies below the first default threshold 2048. *)
Theorem C3_camera_above_center :
  let q := Update cameraAbove acceptAll terrain512 in
  let visible := GetVisibleNodes q [] in
  Initialize QuadTree_new f512 f64 5 = Some terrain512 /\
  option_map
    (fun root => forallb (fun pn =>
       Intersects (TerrainNode.Bounds (fields_of (snd pn))) acceptAll)
       (nodes_of root [])) (mRoot terrain512) = Some true /\
  option_map (fun f => horizontalDistance f cameraAbove) (deref terrain512 [])
    = Some f0 /\
  (f512 * f1_5)%f32 = f768 /\ (f0 <? f768)%f32 = true /\
  GetVisibleNodeCount q = 28 /\
  length visible = 28%nat /\
  ~ In [] visible /\
  map (fun p => option_map TerrainNode.LODLevel (deref q p)) visible
    = repeat (Some 0) 28 /\
  length (filter (fun p =>
    match deref q p with
    | Some f => SFeqb (TerrainNode.Size f) f64
    | None => false
    end) visible) = 16%nat /\
  length (filter (fun p =>
    match deref q p with
    | Some f => SFeqb (TerrainNode.Size f) f128
    | None => false
    end) visible) = 12%nat /\
  hd_error (mLODDistances terrain512) = Some (Float32.of_int 2048).
Proof.
  cbv zeta. conjuncts; try by_computation.
  vm_compute. intuition discriminate.
Qed.

(* ================================================================== *)
(** ** Frustum culling *)

Lemma corner_in_corners (b : BoundingBoxAABB) (sx sy sz : bool) :
  let c := Center b in
  let e := Extents b in
  In (XMFLOAT3.mk
        (if sx then XMFLOAT3.x c + XMFLOAT3.x e else XMFLOAT3.x c - XMFLOAT3.x e)
        (if sy then XMFLOAT3.y c + XMFLOAT3.y e else XMFLOAT3.y c - XMFLOAT3.y e)
        (if sz then XMFLOAT3.z c + XMFLOAT3.z e else XMFLOAT3.z c - XMFLOAT3.z e))%f32
     (corners b).
Proof.
  unfold corners. simpl. destruct sx, sy, sz; simpl; tauto.
Qed.

(** The positive vertex is a corner of the box: a box that lies behind a
    plane fails the test of that plane. *)
Lemma box_behind_fails_plane (b : BoundingBoxAABB) (p : XMFLOAT4.t) :
  box_behind b p = true ->
  (planeDistance p (positiveVertex b p) <? f0)%f32 = true.
Proof.
  unfold box_behind. rewrite forallb_forall. intros H. apply H.
  unfold positiveVertex. apply corner_in_corners.
Qed.

Lemma Intersects_from_false (b : BoundingBoxAABB) (planes : Planes) (n : nat) :
  forall i k,
    (i <= k < i + n)%nat ->
    (planeDistance (planes k) (positiveVertex b (planes k)) <? f0)%f32 = true ->
    Intersects_from b planes i n = false.
Proof.
  induction n as [| n IH]; intros i k Hk Hneg; [lia | ]. simpl.
  destruct (Nat.eq_dec i k) as [-> | Hik].
  - now rewrite Hneg.
  - destruct (planeDistance (planes i) _ <? f0)%f32; [reflexivity | ].
    apply (IH (S i) k); [lia | exact Hneg].
Qed.

(** The test has no false positives: a box that lies entirely on the
    negative side of one of the six planes does not intersect the frustum. *)
Lemma outside_frustum_not_Intersects (b : BoundingBoxAABB) (planes : Planes) :
  outside_frustum b planes = true -> Intersects b planes = false.
Proof.
  unfold outside_frustum. rewrite existsb_exists.
  intros (k & Hk & Hbehind). apply in_seq in Hk.
  apply (Intersects_from_false b planes 6 0 k); [lia | ].
  now apply box_behind_fails_plane.
Qed.

Section FirstFrameCulling.

Variable cameraPos : XMFLOAT3.t.
Variable frustumPlanes : Planes.

(** On a tree without stale flags, every node on the way from the updated
    node down to a collected node has passed the frustum test. *)
Lemma UpdateNode_selects_tested_nodes (n : TerrainNode) :
  everywhere invisible n ->
  forall (q : QuadTree) (self p a rest : NodePtr),
    In p (CollectVisibleNodes (fst (UpdateNode cameraPos frustumPlanes n q))
            self []) ->
    p = self ++ a ++ rest ->
    tested_at cameraPos frustumPlanes n q a.
Proof.
  unfold tested_at.
  induction n as [f c0 c1 c2 c3 IH0 IH1 IH2 IH3] using TerrainNode_tree_ind.
  intros (Hn & H0 & H1 & H2 & H3) q self p a rest.
  rewrite UpdateNode_unfold.
  destruct (Intersects (TerrainNode.Bounds f) frustumPlanes) eqn:Htest;
    cbv zeta.
  - destruct (negb (TerrainNode.IsLeaf f)
              && (horizontalDistance f cameraPos <? TerrainNode.Size f * f1_5)%f32)
      eqn:Hsub; cbn [fst]; rewrite CollectVisibleNodes_unfold.
    + (* subdivided: [p] comes from one of the children *)
      apply andb_prop in Hsub. destruct Hsub as [Hleaf _].
      apply negb_true_iff in Hleaf.
      replace (TerrainNode.IsVisible
                 (set_IsVisible false
                    (set_LODLevel (CalculateLOD q f cameraPos) f)))
        with false by (destruct f; reflexivity).
      replace (TerrainNode.IsLeaf
                 (set_IsVisible false
                    (set_LODLevel (CalculateLOD q f cameraPos) f)))
        with false by (destruct f; simpl in *; now subst).
      rewrite in_flat_map. intros [[i c'] [Hslot Hp]] E.
      destruct a as [| j a'].
      { eexists. split; [reflexivity | ]. simpl. destruct f; exact Htest. }
      unfold collected_below in Hp. simpl in Hp.
      destruct c' as [m' | ]; [ | destruct Hp].
      destruct (collected_extend_self _ _ _ Hp) as [r Er].
      assert (Eij : j = i /\ r = a' ++ rest).
      { rewrite Er in E. rewrite <- app_assoc in E.
        apply app_inv_head in E. simpl in E.
        injection E as E1 E2. auto. }
      destruct Eij as [-> ->].
      assert (Ep : p = (self ++ [i]) ++ a' ++ rest)
        by (rewrite Er; now rewrite <- !app_assoc).
      unfold slots in Hslot. simpl in Hslot.
      rewrite !visit_child_fst in Hslot.
      destruct Hslot as [E0 | [E0 | [E0 | [E0 | []]]]];
        inversion E0 as [[Ei Ec]]; subst i; simpl node_at;
        rewrite visit_child_fst, Ec.
      * destruct c0 as [m0 | ]; [ | discriminate].
        simpl in Ec. injection Ec as <-. exact (IH0 H0 _ _ p a' rest Hp Ep).
      * destruct c1 as [m1 | ]; [ | discriminate].
        simpl in Ec. injection Ec as <-. exact (IH1 H1 _ _ p a' rest Hp Ep).
      * destruct c2 as [m2 | ]; [ | discriminate].
        simpl in Ec. injection Ec as <-. exact (IH2 H2 _ _ p a' rest Hp Ep).
      * destruct c3 as [m3 | ]; [ | discriminate].
        simpl in Ec. injection Ec as <-. exact (IH3 H3 _ _ p a' rest Hp Ep).
    + (* used as it is: [p] is the node itself *)
      replace (TerrainNode.IsVisible
                 (set_ObjectCBIndex (mNextObjectCBIndex q)
                    (set_IsVisible true
                       (set_LODLevel (CalculateLOD q f cameraPos) f))))
        with true by (destruct f; reflexivity).
      intros [<- | []] E.
      rewrite <- (app_nil_r self) in E at 1. apply app_inv_head in E.
      symmetry in E. apply app_eq_nil in E. destruct E as [-> _].
      eexists. split; [reflexivity | ]. simpl. destruct f; exact Htest.
  - (* culled: nothing below can be collected *)
    cbn [fst]. rewrite collect_invisible; [intros [] | ].
    simpl. repeat split; try assumption.
    unfold invisible. destruct f; reflexivity.
Qed.

(** Culling is right on the first frame: when no flag is left over from an
    earlier frame (as after [Initialize]), no node returned by
    [GetVisibleNodes] lies behind a plane of the frustum just passed to
    [Update], and neither does any node on the path from the root to it. *)
Lemma first_Update_culls (q : QuadTree) (root : TerrainNode)
    (outNodes : list NodePtr) (p a rest : NodePtr) (f : TerrainNode.fields) :
  mRoot q = Some root -> everywhere invisible root ->
  In p (GetVisibleNodes (Update cameraPos frustumPlanes q) outNodes) ->
  p = a ++ rest ->
  deref (Update cameraPos frustumPlanes q) a = Some f ->
  outside_frustum (TerrainNode.Bounds f) frustumPlanes = false.
Proof.
  intros Hroot Hfresh Hp E Hf.
  unfold GetVisibleNodes, deref in *.
  rewrite (Update_unfold cameraPos frustumPlanes q root Hroot) in *.
  cbv zeta in *. rewrite mRoot_set_mRoot in *.
  destruct (UpdateNode_selects_tested_nodes root Hfresh _ [] p a rest Hp E)
    as (m & Hm & Htest).
  rewrite Hm in Hf. simpl in Hf. injection Hf as <-.
  destruct (outside_frustum _ frustumPlanes) eqn:Hout; [ | reflexivity].
  apply outside_frustum_not_Intersects in Hout. congruence.
Qed.

End FirstFrameCulling.

(** In particular on the first frame after [Initialize]. *)
Corollary Initialize_then_Update_culls (q0 q : QuadTree) (ts ms : float)
    (ml : int) (cameraPos : XMFLOAT3.t) (frustumPlanes : Planes)
    (outNodes : list NodePtr) (p a rest : NodePtr) (f : TerrainNode.fields) :
  Initialize q0 ts ms ml = Some q ->
  In p (GetVisibleNodes (Update cameraPos frustumPlanes q) outNodes) ->
  p = a ++ rest ->
  deref (Update cameraPos frustumPlanes q) a = Some f ->
  outside_frustum (TerrainNode.Bounds f) frustumPlanes = false.
Proof.
  intros Hinit.
  destruct (Initialize_has_root q0 q ts ms ml Hinit) as [root Hroot].
  apply (first_Update_culls cameraPos frustumPlanes q root); [exact Hroot | ].
  exact (Initialize_invisible q0 q ts ms ml root Hinit Hroot).
Qed.

(** C1 fails on the code.  First frame: camera at the centre, frustum
    accepting everything; 28 nodes are selected.  Second frame: the frustum
    looks away and the root lies behind plane 4, so [Update] clears the flag
    of the root and returns at once with no node selected.  The flags below
    the root are still those of the first frame, and [GetVisibleNodes]
    descends below the culled root and returns the 28 nodes of the first
    frame, every one of them behind plane 4. *)
Theorem C1_culled_subtree_keeps_stale_flags :
  let q := Updates [(cameraCenter, acceptAll); (cameraCenter, lookAway)]
             terrain512 in
  let visible := GetVisibleNodes q [] in
  option_map (fun f => outside_frustum (TerrainNode.Bounds f) lookAway)
    (deref q []) = Some true /\
  GetVisibleNodeCount q = 0 /\
  length visible = 28%nat /\
  forallb (fun p =>
    match deref q p with
    | Some f => outside_frustum (TerrainNode.Bounds f) lookAway
    | None => false
    end) visible = true /\
  visible
  = GetVisibleNodes (Updates [(cameraCenter, acceptAll)] terrain512) [].
Proof. cbv zeta. conjuncts; by_computation. Qed.

(* ================================================================== *)
(** ** Render slots *)

Lemma Zseq_app (a : Z) (m n : nat) :
  Zseq a (m + n) = Zseq a m ++ Zseq (a + Z.of_nat m) n.
Proof.
  unfold Zseq. rewrite seq_app, map_app. f_equal.
  assert (shift : forall k,
            map (fun j => a + Z.of_nat j) (seq (k + m) n)
            = map (fun j => a + Z.of_nat m + Z.of_nat j) (seq k n)).
  { induction n as [| n IH]; intros k; simpl; [reflexivity | ].
    f_equal; [lia | apply (IH (S k))]. }
  apply (shift 0%nat).
Qed.

Lemma collected_below_root (i : nat) (c : option TerrainNode) :
  collected_below [] (i, c) = map (cons i) (opt_collect c).
Proof.
  destruct c as [m | ]; unfold collected_below; simpl; [ | reflexivity].
  rewrite (CollectVisibleNodes_shift m [i]). reflexivity.
Qed.

(** The slots behind the handles collected below child [i] are those of
    the child. *)
Lemma slots_in_child (f : TerrainNode.fields) (c0 c1 c2 c3 : option TerrainNode)
    (i : nat) (c : option TerrainNode) :
  Children (Node f c0 c1 c2 c3) i = c ->
  slots_in (Node f c0 c1 c2 c3) (map (cons i) (opt_collect c)) = opt_slots c.
Proof.
  intros Hc. unfold slots_in. rewrite map_map.
  destruct c as [m | ]; [ | reflexivity]. simpl opt_collect. simpl opt_slots.
  unfold slots_in. apply map_ext. intros p.
  change (node_at (Node f c0 c1 c2 c3) (i :: p))
    with (match Children (Node f c0 c1 c2 c3) i with
          | Some c => node_at c p
          | None => None
          end).
  now rewrite Hc.
Qed.

(** Two runs of slots, one after the other. *)
Lemma slots_advance_app (q q1 q2 : QuadTree) (s1 s2 : list (option UINT))
    (k1 k2 b1 b2 : nat) :
  slots_advance q q1 s1 k1 b1 -> slots_advance q1 q2 s2 k2 b2 ->
  slots_advance q q2 (s1 ++ s2) (k1 + k2) (b1 + b2).
Proof.
  unfold slots_advance, UINT, int in *.
  intros (-> & N1 & V1 & L1) (-> & N2 & V2 & L2).
  rewrite Zseq_app, map_app, N1. repeat split; lia.
Qed.

Lemma room_for_after (q q1 : QuadTree) (s : list (option UINT))
    (k b rest : nat) :
  room_for q (b + rest) -> slots_advance q q1 s k b -> room_for q1 rest.
Proof.
  unfold room_for, slots_advance, UINT, int in *.
  intros (A0 & A1 & B0 & B1) (_ & N & V & L). lia.
Qed.

Section FirstFrameSlots.

Variable cameraPos : XMFLOAT3.t.
Variable frustumPlanes : Planes.

(** The same for a child slot, which may be empty. *)
Lemma visit_child_slots (c : option TerrainNode) :
  opt_all (hands_out_slots cameraPos frustumPlanes) c ->
  opt_all (everywhere invisible) c ->
  forall q : QuadTree,
    room_for q (opt_size c) ->
    let r := visit_child (UpdateNode cameraPos frustumPlanes) c q in
    slots_advance q (snd r) (opt_slots (fst r))
      (length (opt_collect (fst r))) (opt_size c).
Proof.
  destruct c as [m | ]; simpl; intros IH Hinv q Hroom.
  - unfold hands_out_slots in IH. specialize (IH Hinv q Hroom).
    cbv zeta in IH.
    destruct (UpdateNode cameraPos frustumPlanes m q) as [m' q']. exact IH.
  - unfold slots_advance, Zseq. simpl. repeat split; lia.
Qed.

(** On a tree without stale flags, [UpdateNode] hands out consecutive slots
    in the order in which [CollectVisibleNodes] returns the nodes, and both
    counters advance by the number of nodes returned. *)
Lemma UpdateNode_slots (n : TerrainNode) :
  hands_out_slots cameraPos frustumPlanes n.
Proof.
  unfold hands_out_slots.
  induction n as [f c0 c1 c2 c3 IH0 IH1 IH2 IH3] using TerrainNode_tree_ind.
  intros (Hn & H0 & H1 & H2 & H3) q Hroom. cbv zeta.
  rewrite UpdateNode_unfold.
  change (subtree_size (Node f c0 c1 c2 c3))
    with (S (opt_size c0 + opt_size c1 + opt_size c2 + opt_size c3)) in *.
  destruct (Intersects (TerrainNode.Bounds f) frustumPlanes); cbv zeta.
  - destruct (negb (TerrainNode.IsLeaf f)
              && (horizontalDistance f cameraPos <? TerrainNode.Size f * f1_5)%f32)
      eqn:Hsub; cbn [fst snd]; rewrite CollectVisibleNodes_unfold.
    + (* subdivided: the four children take their slots in turn *)
      apply andb_prop in Hsub. destruct Hsub as [Hleaf _].
      apply negb_true_iff in Hleaf.
      replace (TerrainNode.IsVisible
                 (set_IsVisible false
                    (set_LODLevel (CalculateLOD q f cameraPos) f)))
        with false by (destruct f; reflexivity).
      replace (TerrainNode.IsLeaf
                 (set_IsVisible false
                    (set_LODLevel (CalculateLOD q f cameraPos) f)))
        with false by (destruct f; simpl in *; now subst).
      set (r0 := visit_child (UpdateNode cameraPos frustumPlanes) c0 q).
      set (r1 := visit_child (UpdateNode cameraPos frustumPlanes) c1 (snd r0)).
      set (r2 := visit_child (UpdateNode cameraPos frustumPlanes) c2 (snd r1)).
      set (r3 := visit_child (UpdateNode cameraPos frustumPlanes) c3 (snd r2)).
      assert (Hroom0 : room_for q (opt_size c0
                         + (opt_size c1 + (opt_size c2 + opt_size c3))))
        by (unfold room_for in *; lia).
      assert (A0 := visit_child_slots c0 IH0 H0 q).
      fold r0 in A0. cbv zeta in A0.
      assert (A1 := visit_child_slots c1 IH1 H1 (snd r0)).
      fold r1 in A1. cbv zeta in A1.
      assert (A2 := visit_child_slots c2 IH2 H2 (snd r1)).
      fold r2 in A2. cbv zeta in A2.
      assert (A3 := visit_child_slots c3 IH3 H3 (snd r2)).
      fold r3 in A3. cbv zeta in A3.
      clearbody r0 r1 r2 r3.
      assert (R0 : room_for q (opt_size c0))
        by (unfold room_for in *; lia).
      specialize (A0 R0).
      assert (R1 : room_for (snd r0) (opt_size c1
                     + (opt_size c2 + opt_size c3)))
        by exact (room_for_after _ _ _ _ _ _ Hroom0 A0).
      assert (R1' : room_for (snd r0) (opt_size c1))
        by (unfold room_for in *; lia).
      specialize (A1 R1').
      assert (R2 : room_for (snd r1) (opt_size c2 + opt_size c3))
        by exact (room_for_after _ _ _ _ _ _ R1 A1).
      assert (R2' : room_for (snd r1) (opt_size c2))
        by (unfold room_for in *; lia).
      specialize (A2 R2').
      assert (R3 : room_for (snd r2) (opt_size c3))
        by exact (room_for_after _ _ _ _ _ _ R2 A2).
      specialize (A3 R3).
      pose proof (slots_advance_app _ _ _ _ _ _ _ _ _ A0
                    (slots_advance_app _ _ _ _ _ _ _ _ _ A1
                       (slots_advance_app _ _ _ _ _ _ _ _ _ A2 A3))) as A.
      unfold slots. cbn [flat_map]. rewrite app_nil_r, !collected_below_root.
      unfold slots_in at 1. rewrite !map_app.
      repeat match goal with
      | |- context [map ?g (map (cons ?i) (opt_collect ?c))] =>
          change (map g (map (cons i) (opt_collect c)))
            with (slots_in (Node (set_IsVisible false
                                    (set_LODLevel (CalculateLOD q f cameraPos) f))
                              (fst r0) (fst r1) (fst r2) (fst r3))
                    (map (cons i) (opt_collect c)))
      end.
      rewrite !slots_in_child by reflexivity.
      rewrite !length_app, !length_map.
      unfold slots_advance, NodePtr in *.
      destruct A as (As & An & Av & Al). repeat split; try assumption. lia.
    + (* used as it is: the node takes the next slot *)
      replace (TerrainNode.IsVisible
                 (set_ObjectCBIndex (mNextObjectCBIndex q)
                    (set_IsVisible true
                       (set_LODLevel (CalculateLOD q f cameraPos) f))))
        with true by (destruct f; reflexivity).
      unfold slots_advance, room_for, slots_in, Zseq, UINT, int in *.
      simpl. repeat split.
      * f_equal. f_equal. destruct f; simpl. lia.
      * destruct q; simpl in *. rewrite wrap_uint_id; lia.
      * destruct q; simpl in *. rewrite wrap_int_id; lia.
      * lia.
  - (* culled: no slot is handed out *)
    cbn [fst snd]. rewrite collect_invisible.
    + unfold slots_advance, Zseq. simpl. repeat split; lia.
    + simpl. repeat split; try assumption.
      unfold invisible. destruct f; reflexivity.
Qed.

(** Render slots are right on the first frame: when no flag is left over
    from an earlier frame (as after [Initialize]) and the tree has fewer
    than 2^31 nodes, the slots of the N returned nodes are 0, 1, ..., N-1 in
    the order of the returned sequence, and N is [GetVisibleNodeCount()]. *)
Lemma first_Update_slots (q : QuadTree) (root : TerrainNode)
    (outNodes : list NodePtr) :
  mRoot q = Some root -> everywhere invisible root ->
  Z.of_nat (subtree_size root) < 2147483648 ->
  let q' := Update cameraPos frustumPlanes q in
  let visible := GetVisibleNodes q' outNodes in
  slots_of q' visible = map Some (Zseq 0 (length visible)) /\
  GetVisibleNodeCount q' = Z.of_nat (length visible).
Proof.
  intros Hroot Hfresh Hsize. cbv zeta.
  rewrite (Update_unfold cameraPos frustumPlanes q root Hroot).
  set (q1 := set_mNextObjectCBIndex 0 (set_mVisibleNodeCount 0 q)).
  assert (Hn : mNextObjectCBIndex q1 = 0) by (destruct q; reflexivity).
  assert (Hv : mVisibleNodeCount q1 = 0) by (destruct q; reflexivity).
  assert (Hroom : room_for q1 (subtree_size root))
    by (unfold room_for, UINT, int in *; rewrite Hn, Hv; lia).
  destruct (UpdateNode_slots root Hfresh q1 Hroom)
    as (Hslots & _ & Hcount & _).
  rewrite Hn in Hslots. rewrite Hv in Hcount.
  destruct (UpdateNode cameraPos frustumPlanes root q1) as [root' q2].
  cbn [fst snd] in *.
  unfold GetVisibleNodes, GetVisibleNodeCount, slots_of, deref.
  rewrite mRoot_set_mRoot. split.
  - rewrite <- Hslots. unfold slots_in. apply map_ext. intros p.
    now destruct (node_at root' p).
  - destruct q2; simpl in *. unfold NodePtr, UINT, int in *. lia.
Qed.

End FirstFrameSlots.

(** In particular on the first frame after [Initialize]. *)
Corollary Initialize_then_Update_slots (q0 q : QuadTree) (ts ms : float)
    (ml : int) (cameraPos : XMFLOAT3.t) (frustumPlanes : Planes)
    (outNodes : list NodePtr) :
  Initialize q0 ts ms ml = Some q ->
  (forall root, mRoot q = Some root ->
                Z.of_nat (subtree_size root) < 2147483648) ->
  let q' := Update cameraPos frustumPlanes q in
  let visible := GetVisibleNodes q' outNodes in
  slots_of q' visible = map Some (Zseq 0 (length visible)) /\
  GetVisibleNodeCount q' = Z.of_nat (length visible).
Proof.
  intros Hinit Hsize q' visible.
  destruct (Initialize_has_root q0 q ts ms ml Hinit) as [root Hroot].
  apply (first_Update_slots cameraPos frustumPlanes q root);
    [exact Hroot | | exact (Hsize root Hroot)].
  exact (Initialize_invisible q0 q ts ms ml root Hinit Hroot).
Qed.

(** C4 fails on the code.  First frame as for C1.  Second frame: the frustum
    keeps the east half only.  [Update] selects 14 nodes and numbers them
    0..13, but [GetVisibleNodes] also returns the 14 nodes of the culled
    north-west and south-west quadrants with the slots of the first frame:
    28 handles, slots 0..6 twice, and 14..20 before 7..13. *)
Theorem C4_stale_slots_are_returned :
  let q := Updates [(cameraCenter, acceptAll); (cameraCenter, eastOnly)]
             terrain512 in
  let visible := GetVisibleNodes q [] in
  GetVisibleNodeCount q = 14 /\
  length visible = 28%nat /\
  slots_of q visible
  = map Some ([0; 1; 2; 3; 4; 5; 6] ++ [0; 1; 2; 3; 4; 5; 6]
              ++ [14; 15; 16; 17; 18; 19; 20] ++ [7; 8; 9; 10; 11; 12; 13]) /\
  slots_of q visible <> map Some (Zseq 0 (length visible)).
Proof.
  cbv zeta. conjuncts; try by_computation.
  vm_compute. discriminate.
Qed.
